(** * list2base58: a Solana secret-key list turned into a base58 string

    A shallow embedding of [list2base58.py] and of the library calls it
    makes, followed by the properties of the encoder, the loader and the
    command-line entry point.

    Conventions of the embedding:
    - a Python [int] is a [Z]; a Python [bytes] object is a [list byte];
      a Python [str] is a [string] whose characters are the code points
      below 256;
    - a raised exception is the [Raise] branch of [result]; an exception
      carries its class and the text that [str(e)] gives;
    - the objects the loader can hand to the encoder are the constructors
      of [value]. *)

From Stdlib Require Import ZArith List Bool Lia QArith.
From Stdlib Require Import Strings.String Strings.Ascii Strings.Byte.
Import ListNotations.

Set Warnings "-register-all".

Local Open Scope string_scope.
Local Open Scope Z_scope.

(** ** Exceptions and the error monad *)

Inductive exc_class : Type :=
| ValueError
| TypeError
| SyntaxError
| JSONDecodeError
| OSError
| OverflowError
| UnicodeError
| OtherError (name : string)
| Unmodelled.

(** [Unmodelled] is no Python exception: it is what the models of
    [json.loads] and [ast.literal_eval] below answer to a text outside the
    part of their grammar that they cover. *)

Record exn : Type := mk_exn { exn_class : exc_class; exn_msg : string }.

Inductive result (A : Type) : Type :=
| Ok (a : A)
| Raise (e : exn).

Arguments Ok {A} a.
Arguments Raise {A} e.

Definition bind {A B : Type} (c : result A) (k : A -> result B) : result B :=
  match c with
  | Ok a => k a
  | Raise e => Raise e
  end.

Notation "x <- c ;; k" := (bind c (fun x => k))
  (at level 61, c at next level, right associativity).

Definition raise {A : Type} (c : exc_class) (msg : string) : result A :=
  Raise (mk_exn c msg).

(** [[f(x) for x in l]], stopping at the first exception. *)
Fixpoint mapM {A B : Type} (f : A -> result B) (l : list A) : result (list B) :=
  match l with
  | [] => Ok []
  | x :: t => y <- f x ;; ys <- mapM f t ;; Ok (y :: ys)
  end.

(** ** Python objects *)

Inductive value : Type :=
| VNone
| VBool (b : bool)
| VInt (z : Z)
| VFloat (q : Q)
| VStr (s : string)
| VList (items : list value)
| VTuple (items : list value).

Definition type_name (v : value) : string :=
  match v with
  | VNone => "NoneType"
  | VBool _ => "bool"
  | VInt _ => "int"
  | VFloat _ => "float"
  | VStr _ => "str"
  | VList _ => "list"
  | VTuple _ => "tuple"
  end.

(** ** Decimal text of an integer, as [str(n)] and [f"{n}"] give it *)

Definition digit_char (d : Z) : ascii := ascii_of_N (48 + Z.to_N d).

Fixpoint dec_digits (fuel : nat) (n : Z) (acc : string) : string :=
  match fuel with
  | O => acc
  | S fuel' =>
      let acc' := String (digit_char (n mod 10)) acc in
      if n / 10 =? 0 then acc' else dec_digits fuel' (n / 10) acc'
  end.

(** The number of binary digits bounds the number of decimal ones. *)
Definition dec_fuel (n : Z) : nat := S (Z.to_nat (Z.log2 n)).

Definition str_of_nonneg (n : Z) : string := dec_digits (dec_fuel n) n "".

Definition str_of_int (z : Z) : string :=
  if z <? 0 then String "-" (str_of_nonneg (- z)) else str_of_nonneg z.

(** ** [len], comparison with an [int], [any], [bytes] *)

Definition py_len (v : value) : result nat :=
  match v with
  | VStr s => Ok (String.length s)
  | VList l | VTuple l => Ok (List.length l)
  | _ => raise TypeError ("object of type '" ++ type_name v ++ "' has no len()")
  end.

Definition py_iter (v : value) : result (list value) :=
  match v with
  | VStr s => Ok (map (fun c => VStr (String c "")) (list_ascii_of_string s))
  | VList l | VTuple l => Ok l
  | _ => raise TypeError ("'" ++ type_name v ++ "' object is not iterable")
  end.

Definition unorderable {A : Type} (l r : string) : result A :=
  raise TypeError
    ("'<=' not supported between instances of '" ++ l ++ "' and '" ++ r ++ "'").

(** [a <= v] for an [int] constant [a]. *)
Definition int_le_value (a : Z) (v : value) : result bool :=
  match v with
  | VInt z => Ok (a <=? z)
  | VBool b => Ok (a <=? Z.b2z b)
  | VFloat q => Ok (Qle_bool (inject_Z a) q)
  | _ => unorderable "int" (type_name v)
  end.

(** [v <= b] for an [int] constant [b]. *)
Definition value_le_int (v : value) (b : Z) : result bool :=
  match v with
  | VInt z => Ok (z <=? b)
  | VBool c => Ok (Z.b2z c <=? b)
  | VFloat q => Ok (Qle_bool q (inject_Z b))
  | _ => unorderable (type_name v) "int"
  end.

(** The chained comparison [0 <= n <= 255]: the right half is evaluated
    only when the left half is true. *)
Definition in_byte_range (n : value) : result bool :=
  lo <- int_le_value 0 n ;;
  if lo then value_le_int n 255 else Ok false.

(** [any(p(x) for x in l)]: stops at the first true item and at the first
    exception. *)
Fixpoint py_any {A : Type} (p : A -> result bool) (l : list A) : result bool :=
  match l with
  | [] => Ok false
  | x :: t => b <- p x ;; if b then Ok true else py_any p t
  end.

Definition byte_of_Z (z : Z) : option byte :=
  if z <? 0 then None else Byte.of_N (Z.to_N z).

Definition Z_of_byte (b : byte) : Z := Z.of_N (Byte.to_N b).

Definition index_to_byte (z : Z) : result byte :=
  match byte_of_Z z with
  | Some b => Ok b
  | None => raise ValueError "bytes must be in range(0, 256)"
  end.

(** One item of the iterable given to [bytes]: its [__index__], which must
    lie in [range(0, 256)]. *)
Definition byte_of_item (v : value) : result byte :=
  match v with
  | VInt z => index_to_byte z
  | VBool b => index_to_byte (Z.b2z b)
  | _ => raise TypeError
           ("'" ++ type_name v ++ "' object cannot be interpreted as an integer")
  end.

(** [bytes(v)]. *)
Definition py_bytes (v : value) : result (list byte) :=
  match v with
  | VList l | VTuple l => mapM byte_of_item l
  | VStr _ => raise TypeError "string argument without an encoding"
  | VInt z =>
      if z <? 0 then raise ValueError "negative count"
      else Ok (repeat x00 (Z.to_nat z))
  | VBool b => Ok (repeat x00 (Z.to_nat (Z.b2z b)))
  | _ => raise TypeError
           ("cannot convert '" ++ type_name v ++ "' object to bytes")
  end.

(** [b.decode()] on bytes below 128, the only ones base58 text has; a byte
    from 128 up starts a multi-byte sequence, which this embedding of [str]
    does not cover, and is rejected. *)
Definition is_ascii_byte (b : byte) : bool := (Byte.to_N b <? 128)%N.

Definition bytes_decode (b : list byte) : result string :=
  if forallb is_ascii_byte b then Ok (string_of_list_byte b)
  else raise UnicodeError "'utf-8' codec can't decode byte".

(** [s.encode('ascii')]. *)
Definition str_encode_ascii (s : string) : result (list byte) :=
  let b := list_byte_of_string s in
  if forallb is_ascii_byte b then Ok b
  else raise UnicodeError "'ascii' codec can't encode character".

(** ** Whitespace, [strip] and [repr] *)

(** [str.isspace] on the code points below 256. *)
Definition is_space (c : ascii) : bool :=
  let n := N_of_ascii c in
  ((9 <=? n) && (n <=? 13) || (28 <=? n) && (n <=? 32)
   || (n =? 133) || (n =? 160))%N.

(** The whitespace of [bytes.strip]: space, tab, newline, return, vertical
    tab and form feed. *)
Definition is_space_byte (b : byte) : bool :=
  let n := Byte.to_N b in
  ((9 <=? n) && (n <=? 13) || (n =? 32))%N.

Definition is_empty (s : string) : bool :=
  match s with
  | EmptyString => true
  | String _ _ => false
  end.

(** [lstrip], [rstrip] and [strip] by a class of characters. *)
Fixpoint lstrip_by (p : ascii -> bool) (s : string) : string :=
  match s with
  | String c t => if p c then lstrip_by p t else s
  | EmptyString => EmptyString
  end.

Fixpoint rstrip_by (p : ascii -> bool) (s : string) : string :=
  match s with
  | String c t =>
      let t' := rstrip_by p t in
      if is_empty t' && p c then EmptyString else String c t'
  | EmptyString => EmptyString
  end.

Definition strip_by (p : ascii -> bool) (s : string) : string :=
  lstrip_by p (rstrip_by p s).

Definition py_rstrip : string -> string := rstrip_by is_space.
Definition py_strip : string -> string := strip_by is_space.

Fixpoint bytes_lstrip (chars : list byte) (v : list byte) : list byte :=
  match v with
  | b :: t => if existsb (Byte.eqb b) chars then bytes_lstrip chars t else v
  | [] => []
  end.

Fixpoint bytes_rstrip_ws (v : list byte) : list byte :=
  match v with
  | b :: t =>
      let t' := bytes_rstrip_ws t in
      match t' with
      | [] => if is_space_byte b then [] else [b]
      | _ :: _ => b :: t'
      end
  | [] => []
  end.

Definition hex_char (d : N) : ascii :=
  if (d <? 10)%N then ascii_of_N (48 + d) else ascii_of_N (87 + d).

Definition hex_escape (n : N) : string :=
  String "\" (String "x" (String (hex_char (n / 16)) (String (hex_char (n mod 16)) ""))).

Fixpoint contains_char (c : ascii) (s : string) : bool :=
  match s with
  | String d t => Ascii.eqb c d || contains_char c t
  | EmptyString => false
  end.

Definition double_quote : ascii := ascii_of_N 34.

Definition repr_char (quote c : ascii) : string :=
  let n := N_of_ascii c in
  if Ascii.eqb c quote || Ascii.eqb c "\" then String "\" (String c "")
  else if (n =? 9)%N then "\t"
  else if (n =? 10)%N then "\n"
  else if (n =? 13)%N then "\r"
  else if (n <? 32)%N || (n =? 127)%N then hex_escape n
  else if (n <? 127)%N then String c ""
  else if (n <=? 160)%N || (n =? 173)%N then hex_escape n
  else String c "".

Fixpoint repr_body (quote : ascii) (s : string) : string :=
  match s with
  | String c t => repr_char quote c ++ repr_body quote t
  | EmptyString => EmptyString
  end.

(** [repr(s)] of a [str]: single quotes unless the text has a single quote
    and no double quote. *)
Definition py_repr (s : string) : string :=
  let quote : ascii :=
    if contains_char "'" s && negb (contains_char double_quote s)
    then double_quote
    else "'"%char in
  String quote (repr_body quote s ++ String quote "").

(** ** The [base58] package (version 2.1.1), as the program imports it *)

Module base58.

Local Open Scope list_scope.

Definition BITCOIN_ALPHABET : list byte :=
  list_byte_of_string
    "123456789ABCDEFGHJKLMNPQRSTUVWXYZabcdefghijkmnopqrstuvwxyz".

(** [int.from_bytes(v, byteorder='big')]. *)
Definition from_bytes_big (v : list byte) : Z :=
  fold_left (fun acc b => acc * 256 + Z_of_byte b) v 0.

(** The slice [a[i:i+1]]. *)
Definition slice1 (a : list byte) (i : Z) : list byte :=
  firstn 1 (skipn (Z.to_nat i) a).

(** The loop of [b58encode_int]:
    [while i: i, idx = divmod(i, base); string = alphabet[idx:idx+1] + string].
    One unit of fuel is one turn of the loop. *)
Fixpoint b58encode_loop (alphabet : list byte) (fuel : nat) (i : Z)
    (string : list byte) : list byte :=
  match fuel with
  | O => string
  | S fuel' =>
      if i =? 0 then string
      else
        let base := Z.of_nat (List.length alphabet) in
        let idx := i mod base in
        b58encode_loop alphabet fuel' (i / base) (slice1 alphabet idx ++ string)
  end.

(** Each turn divides [i] by 58, so its bit length is fuel enough. *)
Definition loop_fuel (i : Z) : nat := S (Z.to_nat (Z.log2 i)).

Definition b58encode_int (i : Z) (default_one : bool) (alphabet : list byte)
    : list byte :=
  if (i =? 0) && default_one then firstn 1 alphabet
  else b58encode_loop alphabet (loop_fuel i) i [].

Definition b58encode (v : list byte) : list byte :=
  let alphabet := BITCOIN_ALPHABET in
  let origlen := List.length v in
  let v := bytes_lstrip [x00] v in
  let newlen := List.length v in
  let acc := from_bytes_big v in
  let result := b58encode_int acc false alphabet in
  List.concat (repeat (firstn 1 alphabet) (origlen - newlen)) ++ result.

(** The dictionary [{char: index for index, char in enumerate(alphabet)}],
    read at [c]; a later index overwrites an earlier one. *)
Fixpoint decode_map_from (index : Z) (alphabet : list byte) (c : byte)
    : option Z :=
  match alphabet with
  | [] => None
  | char :: rest =>
      match decode_map_from (index + 1) rest c with
      | Some j => Some j
      | None => if Byte.eqb char c then Some index else None
      end
  end.

Definition decode_map (alphabet : list byte) (c : byte) : option Z :=
  decode_map_from 0 alphabet c.

(** The loop of [b58decode_int], from the running value [decimal]. *)
Fixpoint b58decode_loop (alphabet : list byte) (v : list byte) (decimal : Z)
    : result Z :=
  match v with
  | [] => Ok decimal
  | char :: rest =>
      match decode_map alphabet char with
      | Some d =>
          b58decode_loop alphabet rest
            (decimal * Z.of_nat (List.length alphabet) + d)
      | None =>
          raise ValueError
            ("Invalid character "
               ++ py_repr (String (ascii_of_byte char) ""))%string
      end
  end.

Definition b58decode_int (v : list byte) (alphabet : list byte) : result Z :=
  let v := if existsb (Byte.eqb x20) alphabet then v else bytes_rstrip_ws v in
  b58decode_loop alphabet v 0.

Definition bit_length (z : Z) : Z :=
  if z =? 0 then 0 else Z.log2 (Z.abs z) + 1.

Definition low_byte (z : Z) : byte :=
  match byte_of_Z (z mod 256) with
  | Some b => b
  | None => x00
  end.

(** The [length] low bytes of [z], least significant first. *)
Fixpoint to_bytes_little (length : nat) (z : Z) : list byte :=
  match length with
  | O => []
  | S n => low_byte z :: to_bytes_little n (z / 256)
  end.

(** [z.to_bytes(length, 'big')]. *)
Definition to_bytes_big (z : Z) (length : Z) : result (list byte) :=
  if length <? 0 then raise ValueError "length argument must be non-negative"
  else if z <? 0 then
    raise OverflowError "can't convert negative int to unsigned"
  else if 256 ^ length <=? z then raise OverflowError "int too big to convert"
  else Ok (rev (to_bytes_little (Z.to_nat length) z)).

(** [b58decode] of a [str]. *)
Definition b58decode (v : string) : result (list byte) :=
  let alphabet := BITCOIN_ALPHABET in
  let v := py_rstrip v in
  v <- str_encode_ascii v ;;
  let origlen := Z.of_nat (List.length v) in
  let v := bytes_lstrip (firstn 1 alphabet) v in
  let newlen := Z.of_nat (List.length v) in
  acc <- b58decode_int v alphabet ;;
  to_bytes_big acc (origlen - newlen + (bit_length acc + 7) / 8).

End base58.

(** ** The encoder: [list_to_base58] *)

Definition list_to_base58 (int_list : value) : result string :=
  n <- py_len int_list ;;
  if negb ((n =? 32) || (n =? 64))%nat then
    raise ValueError
      ("Expected 32 or 64 integers, got " ++ str_of_int (Z.of_nat n))
  else
    items <- py_iter int_list ;;
    bad <- py_any (fun n => ok <- in_byte_range n ;; Ok (negb ok)) items ;;
    if bad then raise ValueError "All list items must be in 0-255 range"
    else
      b <- py_bytes int_list ;;
      bytes_decode (base58.b58encode b).

(** ** Text functions the loader calls *)

(** [s.split(sep)] for a one-character separator: every separator cuts,
    empty pieces are kept. [cur] is the piece being read. *)
Fixpoint split_on (sep : ascii) (s : string) (cur : string) : list string :=
  match s with
  | String c t =>
      if Ascii.eqb c sep then cur :: split_on sep t ""
      else split_on sep t (cur ++ String c "")
  | EmptyString => [cur]
  end.

Definition py_split_on (sep : ascii) (s : string) : list string :=
  split_on sep s "".

(** The pieces between runs of separating characters; no piece is empty. *)
Fixpoint split_runs (sep : ascii -> bool) (s : string) (cur : string)
    : list string :=
  match s with
  | String c t =>
      if sep c then
        if is_empty cur then split_runs sep t "" else cur :: split_runs sep t ""
      else split_runs sep t (cur ++ String c "")
  | EmptyString => if is_empty cur then [] else [cur]
  end.

(** [s.split()]. *)
Definition py_split (s : string) : list string := split_runs is_space s "".

(** [s.replace(old, new)] for one-character [old] and [new]. *)
Fixpoint py_replace (old new : ascii) (s : string) : string :=
  match s with
  | String c t => String (if Ascii.eqb c old then new else c) (py_replace old new t)
  | EmptyString => EmptyString
  end.

Definition is_digit (c : ascii) : bool :=
  let n := N_of_ascii c in ((48 <=? n) && (n <=? 57))%N.

Definition digit_value (c : ascii) : Z := Z.of_N (N_of_ascii c) - 48.

(** The whitespace that [int] ignores around its argument: unlike
    [str.isspace] it leaves out the separators U+001C to U+001F. *)
Definition is_int_space (c : ascii) : bool :=
  let n := N_of_ascii c in
  ((9 <=? n) && (n <=? 13) || (n =? 32) || (n =? 133) || (n =? 160))%N.

(** Decimal digits with single underscores between them. [prev] tells
    whether the character just read was a digit. *)
Fixpoint int_digits (s : string) (acc : Z) (prev : bool) : option Z :=
  match s with
  | String c t =>
      if is_digit c then int_digits t (acc * 10 + digit_value c) true
      else if Ascii.eqb c "_" && prev then int_digits t acc false
      else None
  | EmptyString => if prev then Some acc else None
  end.

(** What follows the character [c] at the head of [s], if it is there. *)
Definition after (c : ascii) (s : string) : option string :=
  match s with
  | String d t => if Ascii.eqb d c then Some t else None
  | EmptyString => None
  end.

Definition int_signed (s : string) : option Z :=
  match after "-" s, after "+" s with
  | Some t, _ => option_map Z.opp (int_digits t 0 false)
  | None, Some t => int_digits t 0 false
  | None, None => int_digits s 0 false
  end.

(** [int(x)] for a [str]. The interpreter's optional cap on the number of
    digits is left out. *)
Definition py_int (x : string) : result Z :=
  match int_signed (strip_by is_int_space x) with
  | Some z => Ok z
  | None =>
      raise ValueError ("invalid literal for int() with base 10: " ++ py_repr x)
  end.

(** ** Paths and the file system *)

(** The last component of a POSIX path: empty components and [.] do not
    count. *)
Definition path_name (source : string) : string :=
  last (filter (fun x => negb (is_empty x || String.eqb x "."))
          (py_split_on "/" source))
       "".

(** The text before and after the last dot. *)
Fixpoint rsplit_dot (s : string) : option (string * string) :=
  match s with
  | String c t =>
      match rsplit_dot t with
      | Some (before, after) => Some (String c before, after)
      | None => if Ascii.eqb c "." then Some ("", t) else None
      end
  | EmptyString => None
  end.

(** [Path(source).suffix]: the last dot of the name and what follows, when
    that dot is neither the first nor the last character of the name. *)
Definition py_suffix (source : string) : string :=
  match rsplit_dot (path_name source) with
  | Some (before, after) =>
      if is_empty before || is_empty after then "" else String "." after
  | None => ""
  end.

(** What the file system answers for a path: [exists()] is false, or it is
    true and [read_text()] gives a text or raises, or [exists()] itself
    raises (a name longer than the system allows, for one). *)
Inductive path_state : Type :=
| Missing
| Present (read_text : result string)
| StatFails (e : exn).

Definition filesystem : Type := string -> path_state.

(** The two parsers of the standard library that the loader calls. *)
Record parsers : Type := {
  json_loads : string -> result value;
  literal_eval : string -> result value
}.

(** ** The loader: [load_list] *)

Definition int_list_of (tokens : list string) : result value :=
  l <- mapM py_int tokens ;; Ok (VList (map VInt l)).

Definition load_list (P : parsers) (fs : filesystem) (source : string)
    : result value :=
  match fs source with
  | StatFails e => Raise e
  | Present read_text =>
      text <- read_text ;;
      let text := py_strip text in
      if String.eqb (py_suffix source) ".json" then json_loads P text
      else if String.eqb (py_suffix source) ".csv" then
        int_list_of
          (filter (fun x => negb (is_empty (py_strip x))) (py_split_on "," text))
      else
        int_list_of (py_split (py_replace "," " " text))
  | Missing => literal_eval P source
  end.

(** ** The command line: [main] *)

Record outcome : Type := {
  stdout : string;
  stderr : string;
  exit_code : Z
}.

Definition newline : string := String (ascii_of_N 10) "".

(** [main] once [argparse] has given [args.source]. *)
Definition main (P : parsers) (fs : filesystem) (source : string) : outcome :=
  match key_ints <- load_list P fs source ;; list_to_base58 key_ints with
  | Ok b58 => {| stdout := b58 ++ newline; stderr := ""; exit_code := 0 |}
  | Raise e =>
      {| stdout := ""; stderr := "Error: " ++ exn_msg e ++ newline;
         exit_code := 1 |}
  end.

(** ** A model of [json.loads] and of [ast.literal_eval]

    Both models cover integers, the three constants and nested sequences;
    the JSON one also covers the decimal numbers that a binary64 float holds
    exactly. On the texts they cover they answer as the library does, up to
    the wording of a parse error, of which only the leading phrase is kept.
    Anything else (strings, objects, other number syntax, comments, nesting
    deeper than [max_depth]) is answered with [Unmodelled]. *)

Definition unmodelled {A : Type} : result A :=
  raise Unmodelled "outside the modelled grammar".

Definition max_depth : nat := 100.

(** The longest prefix of characters in [p], and the rest. *)
Fixpoint span (p : ascii -> bool) (s : string) : string * string :=
  match s with
  | String c t =>
      if p c then let (a, r) := span p t in (String c a, r)
      else (EmptyString, s)
  | EmptyString => (EmptyString, EmptyString)
  end.

Fixpoint drop (n : nat) (s : string) : string :=
  match n, s with
  | S n', String _ t => drop n' t
  | _, _ => s
  end.

(** Fuel for the parsers: two units for each character and two more. *)
Definition parse_fuel (s : string) : nat := 2 * String.length s + 2.

Module json.

(** The whitespace of the JSON grammar. *)
Definition is_ws (c : ascii) : bool :=
  let n := N_of_ascii c in
  ((n =? 32) || (n =? 9) || (n =? 10) || (n =? 13))%N.

Definition skip_ws : string -> string := lstrip_by is_ws.

Definition decode_error {A : Type} (msg : string) : result A :=
  raise JSONDecodeError msg.

(** [NUMBER_RE] matched at the head of [s]: an optional minus and either
    a single zero or a digit run that starts with a non-zero digit; then,
    if present, a dot with digits; then, if present, an exponent mark with
    an optional sign and digits. The three groups and the rest. *)
Definition match_integer (s : string) : option (string * string) :=
  let (sign, s1) :=
    match after "-" s with
    | Some t => ("-", t)
    | None => ("", s)
    end in
  match s1 with
  | String c t =>
      if Ascii.eqb c "0" then Some (sign ++ "0", t)
      else if is_digit c then
        let (ds, r) := span is_digit s1 in Some (sign ++ ds, r)
      else None
  | EmptyString => None
  end.

Definition match_frac (s : string) : string * string :=
  match after "." s with
  | Some t =>
      let (ds, r) := span is_digit t in
      if is_empty ds then ("", s) else (String "." ds, r)
  | None => ("", s)
  end.

Definition match_exp (s : string) : string * string :=
  match s with
  | String e t =>
      if Ascii.eqb e "e" || Ascii.eqb e "E" then
        let (sign, t') :=
          match after "-" t, after "+" t with
          | Some u, _ => ("-", u)
          | None, Some u => ("+", u)
          | None, None => ("", t)
          end in
        let (ds, r) := span is_digit t' in
        if is_empty ds then ("", s) else (String e (sign ++ ds), r)
      else ("", s)
  | EmptyString => ("", s)
  end.

Definition match_number (s : string)
    : option (string * string * string * string) :=
  match match_integer s with
  | Some (integer, r1) =>
      let (frac, r2) := match_frac r1 in
      let (exp, r3) := match_exp r2 in
      Some (integer, frac, exp, r3)
  | None => None
  end.

Fixpoint is_power_of_two (p : positive) : bool :=
  match p with
  | xH => true
  | xO p' => is_power_of_two p'
  | xI _ => false
  end.

(** A rational that a binary64 float surely holds: its numerator has at
    most 53 bits and its denominator is a power of two within range. *)
Definition is_binary64 (q : Q) : bool :=
  (Z.abs (Qnum q) <? 2 ^ 53) && is_power_of_two (Qden q)
  && (Z.pos (Qden q) <=? 2 ^ 1022).

(** [float(integer + frac + exp)]. *)
Definition parse_float (integer frac exp : string) : result value :=
  let negative := prefix "-" integer in
  let digits := drop 1 frac in
  match int_signed integer,
        (if is_empty digits then Some 0 else int_digits digits 0 false),
        (if is_empty exp then Some 0 else int_signed (drop 1 exp)) with
  | Some i, Some f, Some e =>
      let k := Z.of_nat (String.length digits) in
      let mantissa := Z.abs i * 10 ^ k + f in
      let mantissa := if negative then - mantissa else mantissa in
      let q :=
        if k <=? e then inject_Z (mantissa * 10 ^ (e - k))
        else Qred (Qmake mantissa (Z.to_pos (10 ^ (k - e)))) in
      if is_binary64 q then Ok (VFloat q) else unmodelled
  | _, _, _ => unmodelled
  end.

(** [scan_once] and the loop of [JSONArray], on what is left of the
    text. [depth] is the nesting still allowed. *)
Fixpoint scan_once (fuel depth : nat) (s : string) : result (value * string) :=
  match fuel with
  | O => unmodelled
  | S fuel' =>
      match s with
      | EmptyString => decode_error "Expecting value"
      | String nextchar t =>
          if Ascii.eqb nextchar double_quote || Ascii.eqb nextchar "{"
          then unmodelled
          else if Ascii.eqb nextchar "[" then
            match depth with
            | O => unmodelled
            | S depth' =>
                match after "]" (skip_ws t) with
                | Some r => Ok (VList [], r)
                | None =>
                    r <- array_items fuel' depth' (skip_ws t) ;;
                    Ok (VList (fst r), snd r)
                end
            end
          else if prefix "null" s then Ok (VNone, drop 4 s)
          else if prefix "true" s then Ok (VBool true, drop 4 s)
          else if prefix "false" s then Ok (VBool false, drop 5 s)
          else
            match match_number s with
            | Some (integer, frac, exp, r) =>
                if is_empty frac && is_empty exp then
                  z <- py_int integer ;; Ok (VInt z, r)
                else
                  v <- parse_float integer frac exp ;; Ok (v, r)
            | None =>
                if prefix "NaN" s || prefix "Infinity" s
                   || prefix "-Infinity" s
                then unmodelled
                else decode_error "Expecting value"
            end
      end
  end
with array_items (fuel depth : nat) (s : string)
    : result (list value * string) :=
  match fuel with
  | O => unmodelled
  | S fuel' =>
      r <- scan_once fuel' depth s ;;
      let value := fst r in
      match after "]" (skip_ws (snd r)), after "," (skip_ws (snd r)) with
      | Some r', _ => Ok ([value], r')
      | None, Some r' =>
          rest <- array_items fuel' depth (skip_ws r') ;;
          Ok (value :: fst rest, snd rest)
      | None, None => decode_error "Expecting ',' delimiter"
      end
  end.

(** [json.loads(s)]. *)
Definition loads (s : string) : result value :=
  r <- scan_once (parse_fuel s) max_depth (skip_ws s) ;;
  match skip_ws (snd r) with
  | EmptyString => Ok (fst r)
  | String _ _ => decode_error "Extra data"
  end.

End json.

Module pyast.

Inductive unaryop : Type := UAdd | USub.

(** The nodes of the syntax tree that the covered literals produce. *)
Inductive ast : Type :=
| Constant (v : value)
| Name (id : string)
| UnaryOp (op : unaryop) (operand : ast)
| List_ (elts : list ast)
| Tuple (elts : list ast).

Definition syntax_error {A : Type} : result A :=
  raise SyntaxError "invalid syntax".

Definition is_blank (c : ascii) : bool :=
  let n := N_of_ascii c in ((n =? 32) || (n =? 9))%N.

Definition is_newline (c : ascii) : bool :=
  let n := N_of_ascii c in ((n =? 10) || (n =? 13))%N.

(** Between brackets a line break is whitespace; outside it is not. *)
Definition skip (inner : bool) : string -> string :=
  lstrip_by (fun c => is_blank c || (inner && is_newline c)).

Definition is_ident_start (c : ascii) : bool :=
  let n := N_of_ascii c in
  ((65 <=? n) && (n <=? 90) || (97 <=? n) && (n <=? 122) || (n =? 95))%N.

Definition is_ident_char (c : ascii) : bool := is_ident_start c || is_digit c.

Definition keywords : list string :=
  ["and"; "as"; "assert"; "async"; "await"; "break"; "class"; "continue";
   "def"; "del"; "elif"; "else"; "except"; "finally"; "for"; "from";
   "global"; "if"; "import"; "in"; "is"; "lambda"; "nonlocal"; "not"; "or";
   "pass"; "raise"; "return"; "try"; "while"; "with"; "yield"].

(** A decimal integer literal at the head of [s]. A digit run that goes
    on as another kind of number (a dot, a letter) is not covered. *)
Definition parse_number (s : string) : result (ast * string) :=
  let (text, r) := span (fun c => is_digit c || Ascii.eqb c "_") s in
  let goes_on :=
    match r with
    | String c _ =>
        is_ident_char c || Ascii.eqb c "." || (128 <=? N_of_ascii c)%N
    | EmptyString => false
    end in
  if goes_on then unmodelled
  else
    match int_digits text 0 false with
    | Some z =>
        if prefix "0" text && negb (z =? 0) then syntax_error
        else Ok (Constant (VInt z), r)
    | None => syntax_error
    end.

Definition parse_name (s : string) : result (ast * string) :=
  let (id, r) := span is_ident_char s in
  if String.eqb id "True" then Ok (Constant (VBool true), r)
  else if String.eqb id "False" then Ok (Constant (VBool false), r)
  else if String.eqb id "None" then Ok (Constant VNone, r)
  else if existsb (String.eqb id) keywords then unmodelled
  else Ok (Name id, r).

(** Where a sequence may end: at its closing bracket, or, for the
    outermost one, where only line breaks are left. *)
Definition closes (close : option ascii) (s : string) : option string :=
  match close with
  | Some c => after c s
  | None =>
      if is_empty (lstrip_by is_newline s) then Some EmptyString else None
  end.

Definition is_some {A : Type} (o : option A) : bool :=
  match o with
  | Some _ => true
  | None => false
  end.

(** One operand, and a comma-separated sequence of them up to [close]:
    the elements, whether a comma was seen, and the rest. *)
Fixpoint parse_expr (fuel depth : nat) (inner : bool) (s : string)
    : result (ast * string) :=
  match fuel, depth with
  | S fuel', S depth' =>
      match skip inner s with
      | EmptyString => syntax_error
      | String c t =>
          if Ascii.eqb c "[" then
            r <- parse_elts fuel' depth' (Some "]"%char) t ;;
            Ok (List_ (fst (fst r)), snd r)
          else if Ascii.eqb c "(" then
            r <- parse_elts fuel' depth' (Some ")"%char) t ;;
            match r with
            | ([e], false, rest) => Ok (e, rest)
            | (elts, _, rest) => Ok (Tuple elts, rest)
            end
          else if Ascii.eqb c "-" then
            r <- parse_expr fuel' depth' inner t ;;
            Ok (UnaryOp USub (fst r), snd r)
          else if Ascii.eqb c "+" then
            r <- parse_expr fuel' depth' inner t ;;
            Ok (UnaryOp UAdd (fst r), snd r)
          else if is_digit c then parse_number (String c t)
          else if is_ident_start c then parse_name (String c t)
          else if Ascii.eqb c "]" || Ascii.eqb c ")" || Ascii.eqb c ","
          then syntax_error
          else unmodelled
      end
  | _, _ => unmodelled
  end
with parse_elts (fuel depth : nat) (close : option ascii) (s : string)
    : result (list ast * bool * string) :=
  match fuel with
  | O => unmodelled
  | S fuel' =>
      let inner := is_some close in
      let s := skip inner s in
      match closes close s with
      | Some rest => Ok ([], false, rest)
      | None =>
          r <- parse_expr fuel' depth inner s ;;
          let s1 := skip inner (snd r) in
          match closes close s1 with
          | Some rest => Ok ([fst r], false, rest)
          | None =>
              match s1 with
              | String c t =>
                  if Ascii.eqb c "," then
                    more <- parse_elts fuel' depth close t ;;
                    Ok (fst r :: fst (fst more), true, snd more)
                  else if Ascii.eqb c "]" || Ascii.eqb c ")" then syntax_error
                  else unmodelled
              | EmptyString => syntax_error
              end
          end
      end
  end.

(** [ast.parse(s, mode='eval')], down to the expression. *)
Definition parse (s : string) : result ast :=
  r <- parse_elts (parse_fuel s) max_depth None s ;;
  match r with
  | ([], _, _) => syntax_error
  | ([e], false, _) => Ok e
  | (elts, _, _) => Ok (Tuple elts)
  end.

Definition malformed {A : Type} : result A :=
  raise ValueError "malformed node or string".

(** [_convert] of [literal_eval]: a sign is accepted on a number only. *)
Fixpoint convert (node : ast) : result value :=
  match node with
  | Constant v => Ok v
  | Tuple elts =>
      vs <- (fix convert_all (l : list ast) : result (list value) :=
               match l with
               | [] => Ok []
               | e :: t => v <- convert e ;; vs <- convert_all t ;; Ok (v :: vs)
               end) elts ;;
      Ok (VTuple vs)
  | List_ elts =>
      vs <- (fix convert_all (l : list ast) : result (list value) :=
               match l with
               | [] => Ok []
               | e :: t => v <- convert e ;; vs <- convert_all t ;; Ok (v :: vs)
               end) elts ;;
      Ok (VList vs)
  | UnaryOp op (Constant (VInt z)) =>
      Ok (VInt (match op with UAdd => z | USub => - z end))
  | UnaryOp op (Constant (VFloat q)) =>
      Ok (VFloat (match op with UAdd => q | USub => Qopp q end))
  | _ => malformed
  end.

(** [ast.literal_eval(s)] for a [str]. *)
Definition literal_eval (s : string) : result value :=
  node <- parse (lstrip_by is_blank s) ;;
  convert node.

End pyast.

(** The parsers as modelled. *)
Definition cpython : parsers :=
  {| json_loads := json.loads; literal_eval := pyast.literal_eval |}.

(** ** Texts and rules the statements speak of *)

(** The JSON array of the integers [l], as [json.dumps] writes it; it is
    also a Python list literal. *)
Definition json_array_text (l : list Z) : string :=
  "[" ++ String.concat ", " (map str_of_int l) ++ "]".

(** The [.csv] rule in the words of the specification: cut the contents at
    the commas, trim each piece, drop the empty ones, read each one left as
    an integer. *)
Definition csv_by_the_words (text : string) : result value :=
  int_list_of
    (filter (fun x => negb (is_empty x)) (map py_strip (py_split_on "," text))).

(** A text of decimal digits only. *)
Fixpoint all_digits (s : string) : bool :=
  match s with
  | String c t => is_digit c && all_digits t
  | EmptyString => true
  end.

(** The value of a digit string read from the left, from [acc]. *)
Fixpoint digits_value (s : string) (acc : Z) : Z :=
  match s with
  | String c t => digits_value t (acc * 10 + digit_value c)
  | EmptyString => acc
  end.

(** The character after a number in an array: a comma or the bracket. *)
Definition ends_item (rest : string) : Prop :=
  exists c r, rest = String c r /\ (c = ","%char \/ c = "]"%char).

(** A character that [int] trims wherever [str.strip] does: every
    character but the separators U+001C to U+001F. *)
Definition evenly_trimmed (c : ascii) : bool := negb (is_space c) || is_int_space c.

Definition all_chars (f : ascii -> bool) (s : string) : bool :=
  forallb f (list_ascii_of_string s).

(** The syntax tree of an integer literal: a minus sign is an operator. *)
Definition ast_of_int (z : Z) : pyast.ast :=
  if z <? 0 then pyast.UnaryOp pyast.USub (pyast.Constant (VInt (- z)))
  else pyast.Constant (VInt z).

(** The characters a base58 text is made of. *)
Definition alphabet_text : string :=
  "123456789ABCDEFGHJKLMNPQRSTUVWXYZabcdefghijkmnopqrstuvwxyz".

(** A Boolean read as the integer it stands for; other objects as they are. *)
Definition unbool (v : value) : value :=
  match v with
  | VBool b => VInt (Z.b2z b)
  | _ => v
  end.

(** An object that [0 <= n <= 255] cannot compare with an [int]. *)
Definition not_a_number (v : value) : bool :=
  match v with
  | VInt _ | VBool _ | VFloat _ => false
  | _ => true
  end.

(** The text of [n] zeros separated by a comma and a blank. *)
Definition zeros_text (n : nat) : string := String.concat ", " (repeat "0" n).

(** * Properties *)

(** ** The error monad *)

Lemma bind_ok {A B : Type} (c : result A) (k : A -> result B) (a : A) :
  c = Ok a -> bind c k = k a.
Proof. intros ->; reflexivity. Qed.

Lemma bind_raise {A B : Type} (c : result A) (k : A -> result B) (e : exn) :
  c = Raise e -> bind c k = Raise e.
Proof. intros ->; reflexivity. Qed.

(** ** Bytes and integers *)

Lemma Z_of_byte_range (b : byte) : 0 <= Z_of_byte b <= 255.
Proof.
  unfold Z_of_byte. pose proof (Byte.to_N_bounded b). lia.
Qed.

Lemma byte_of_Z_of_byte (b : byte) : byte_of_Z (Z_of_byte b) = Some b.
Proof.
  unfold byte_of_Z, Z_of_byte.
  destruct (Z.ltb_spec (Z.of_N (Byte.to_N b)) 0); [lia|].
  rewrite N2Z.id. apply Byte.of_to_N.
Qed.

Lemma byte_of_Z_some (z : Z) (b : byte) : byte_of_Z z = Some b -> Z_of_byte b = z.
Proof.
  unfold byte_of_Z, Z_of_byte.
  destruct (Z.ltb_spec z 0); [discriminate|].
  intros H1. apply Byte.to_of_N in H1. rewrite H1. lia.
Qed.

Lemma byte_of_Z_in_range (z : Z) :
  0 <= z <= 255 -> exists b, byte_of_Z z = Some b /\ Z_of_byte b = z.
Proof.
  intros Hz. destruct (byte_of_Z z) as [b|] eqn:E.
  - exists b. split; [reflexivity|]. now apply byte_of_Z_some.
  - exfalso. unfold byte_of_Z in E.
    destruct (Z.ltb_spec z 0); [lia|].
    apply Byte.of_N_None_iff in E. lia.
Qed.

Lemma Z_of_byte_inj (a b : byte) : Z_of_byte a = Z_of_byte b -> a = b.
Proof.
  intros H. pose proof (byte_of_Z_of_byte a) as Ha.
  rewrite H, byte_of_Z_of_byte in Ha. congruence.
Qed.

Lemma byte_eqb_eq (a b : byte) : Byte.eqb a b = true <-> a = b.
Proof.
  split.
  - apply Byte.byte_dec_bl.
  - apply Byte.byte_dec_lb.
Qed.

Lemma Z_of_byte_zero (b : byte) : Z_of_byte b = 0 <-> b = x00.
Proof.
  split.
  - intros H. apply Z_of_byte_inj. rewrite H. reflexivity.
  - intros ->. reflexivity.
Qed.

(** ** Big-endian bytes of an integer *)

Module Base58Facts.

Import base58.
Local Open Scope list_scope.

Lemma from_bytes_big_snoc (u : list byte) (b : byte) :
  from_bytes_big (u ++ [b]) = from_bytes_big u * 256 + Z_of_byte b.
Proof.
  unfold from_bytes_big. rewrite fold_left_app. reflexivity.
Qed.

Lemma from_bytes_big_bounds (u : list byte) :
  0 <= from_bytes_big u < 256 ^ Z.of_nat (List.length u).
Proof.
  induction u as [|b u IH] using rev_ind.
  - cbn. lia.
  - rewrite from_bytes_big_snoc, length_app, Nat2Z.inj_add. cbn [List.length].
    rewrite Z.pow_add_r by lia.
    pose proof (Z_of_byte_range b). change (256 ^ Z.of_nat 1) with 256. nia.
Qed.

Lemma fold_from_bytes_shift (u : list byte) (a : Z) :
  fold_left (fun acc b => acc * 256 + Z_of_byte b) u a
  = a * 256 ^ Z.of_nat (List.length u) + from_bytes_big u.
Proof.
  revert a. induction u as [|b u IH]; intros a.
  - cbn. lia.
  - unfold from_bytes_big. cbn [fold_left List.length].
    rewrite IH, (IH (0 * 256 + Z_of_byte b)).
    rewrite Nat2Z.inj_succ, Z.pow_succ_r by lia. ring.
Qed.

Lemma from_bytes_big_cons (b : byte) (u : list byte) :
  from_bytes_big (b :: u)
  = Z_of_byte b * 256 ^ Z.of_nat (List.length u) + from_bytes_big u.
Proof.
  unfold from_bytes_big at 1. cbn [fold_left].
  rewrite fold_from_bytes_shift. ring.
Qed.

Lemma from_bytes_big_zeros (k : nat) (w : list byte) :
  from_bytes_big (repeat x00 k ++ w) = from_bytes_big w.
Proof.
  induction k as [|k IH]; [reflexivity|].
  cbn [repeat app]. rewrite from_bytes_big_cons, IH.
  change (Z_of_byte x00) with 0. lia.
Qed.

Lemma low_byte_spec (z : Z) (b : byte) :
  0 <= z -> low_byte (z * 256 + Z_of_byte b) = b.
Proof.
  intros Hz. unfold low_byte.
  pose proof (Z_of_byte_range b) as Hb.
  replace ((z * 256 + Z_of_byte b) mod 256) with (Z_of_byte b).
  - now rewrite byte_of_Z_of_byte.
  - rewrite Z.add_comm, Z.mod_add by lia. symmetry. apply Z.mod_small. lia.
Qed.

Lemma to_bytes_little_from_bytes (u : list byte) :
  rev (to_bytes_little (List.length u) (from_bytes_big u)) = u.
Proof.
  induction u as [|b u IH] using rev_ind; [reflexivity|].
  rewrite length_app, Nat.add_comm. cbn [List.length Nat.add to_bytes_little rev].
  rewrite from_bytes_big_snoc.
  pose proof (from_bytes_big_bounds u) as Hu.
  pose proof (Z_of_byte_range b) as Hb.
  rewrite low_byte_spec by lia.
  replace ((from_bytes_big u * 256 + Z_of_byte b) / 256) with (from_bytes_big u).
  - now rewrite IH.
  - rewrite Z.add_comm, Z.div_add by lia. rewrite Z.div_small by lia. lia.
Qed.

Lemma to_bytes_big_from_bytes (u : list byte) :
  to_bytes_big (from_bytes_big u) (Z.of_nat (List.length u)) = Ok u.
Proof.
  unfold to_bytes_big. pose proof (from_bytes_big_bounds u) as Hu.
  destruct (Z.ltb_spec (Z.of_nat (List.length u)) 0); [lia|].
  destruct (Z.ltb_spec (from_bytes_big u) 0); [lia|].
  destruct (Z.leb_spec (256 ^ Z.of_nat (List.length u)) (from_bytes_big u)); [lia|].
  now rewrite Nat2Z.id, to_bytes_little_from_bytes.
Qed.

(** The byte count that [b58decode] derives from the bit length is the
    length of the byte string once its leading zero bytes are gone. *)
Lemma byte_count_of_bit_length (b : byte) (u : list byte) :
  b <> x00 ->
  (bit_length (from_bytes_big (b :: u)) + 7) / 8 = Z.of_nat (List.length (b :: u)).
Proof.
  intros Hb. set (n := Z.of_nat (List.length u)).
  assert (Hn : 0 <= n) by (unfold n; lia).
  assert (Hlo : 2 ^ (8 * n) <= from_bytes_big (b :: u)).
  { rewrite from_bytes_big_cons. fold n.
    pose proof (from_bytes_big_bounds u) as Hu. fold n in Hu.
    pose proof (Z_of_byte_range b) as Hr.
    assert (Z_of_byte b <> 0) by (now rewrite Z_of_byte_zero).
    replace (2 ^ (8 * n)) with (256 ^ n).
    - nia.
    - change 256 with (2 ^ 8). now rewrite <- Z.pow_mul_r by lia. }
  assert (Hhi : from_bytes_big (b :: u) < 2 ^ (8 * n + 8)).
  { pose proof (from_bytes_big_bounds (b :: u)) as Hu.
    cbn [List.length] in Hu. rewrite Nat2Z.inj_succ in Hu. fold n in Hu.
    replace (2 ^ (8 * n + 8)) with (256 ^ Z.succ n); [lia|].
    change 256 with (2 ^ 8). rewrite <- Z.pow_mul_r by lia. f_equal. lia. }
  assert (Hpos : 0 < from_bytes_big (b :: u)).
  { pose proof (Z.pow_pos_nonneg 2 (8 * n)). lia. }
  unfold bit_length.
  destruct (Z.eqb_spec (from_bytes_big (b :: u)) 0); [lia|].
  rewrite Z.abs_eq by lia.
  assert (8 * n <= Z.log2 (from_bytes_big (b :: u))).
  { apply Z.log2_le_pow2; lia. }
  assert (Z.log2 (from_bytes_big (b :: u)) < 8 * n + 8).
  { apply Z.log2_lt_pow2; lia. }
  cbn [List.length]. rewrite Nat2Z.inj_succ. fold n.
  symmetry.
  apply Z.div_unique with (r := Z.log2 (from_bytes_big (b :: u)) - 8 * n); lia.
Qed.

(** *** The alphabet *)

Local Abbreviation A58 := BITCOIN_ALPHABET.

Lemma alphabet_length : Z.of_nat (List.length A58) = 58.
Proof. reflexivity. Qed.

Lemma alphabet_digits_checked :
  forallb
    (fun n =>
       match slice1 A58 (Z.of_nat n) with
       | [c] =>
           match decode_map A58 c with
           | Some j => j =? Z.of_nat n
           | None => false
           end
           && existsb (Byte.eqb c) A58
           && ((n =? 0)%nat || negb (existsb (Byte.eqb c) (firstn 1 A58)))
       | _ => false
       end)
    (seq 0 58) = true.
Proof. vm_compute. reflexivity. Qed.

Lemma alphabet_digit (i : Z) :
  0 <= i < 58 ->
  exists c, slice1 A58 i = [c]
            /\ decode_map A58 c = Some i
            /\ In c A58
            /\ (i <> 0 -> existsb (Byte.eqb c) (firstn 1 A58) = false).
Proof.
  intros Hi. pose proof alphabet_digits_checked as H.
  rewrite forallb_forall in H. specialize (H (Z.to_nat i)).
  rewrite Z2Nat.id in H by lia.
  assert (Hin : In (Z.to_nat i) (seq 0 58)) by (apply in_seq; lia).
  specialize (H Hin).
  destruct (slice1 A58 i) as [|c [|? ?]]; try discriminate.
  exists c. split; [reflexivity|].
  apply andb_prop in H as [H H3]. apply andb_prop in H as [H1 H2].
  destruct (decode_map A58 c) as [j|]; [|discriminate].
  apply Z.eqb_eq in H1. subst j.
  split; [reflexivity|]. split.
  - apply existsb_exists in H2 as (x & Hx & E).
    apply byte_eqb_eq in E. now subst x.
  - intros Hne. apply orb_prop in H3 as [H3|H3].
    + apply Nat.eqb_eq in H3. lia.
    + now apply negb_true_iff in H3.
Qed.

Lemma alphabet_chars_checked :
  forallb
    (fun b => is_ascii_byte b && negb (is_space_byte b)
              && negb (is_space (ascii_of_byte b)))
    A58 = true.
Proof. vm_compute. reflexivity. Qed.

Lemma alphabet_char (b : byte) :
  In b A58 ->
  is_ascii_byte b = true /\ is_space_byte b = false
  /\ is_space (ascii_of_byte b) = false.
Proof.
  intros Hb. pose proof alphabet_chars_checked as H.
  rewrite forallb_forall in H. specialize (H b Hb).
  apply andb_prop in H as [H H3]. apply andb_prop in H as [H1 H2].
  rewrite negb_true_iff in H2, H3. auto.
Qed.

(** *** The loop of [b58encode_int] *)

Lemma loop_fuel_enough (i : Z) : 0 <= i -> i < 2 ^ Z.of_nat (loop_fuel i).
Proof.
  intros Hi. unfold loop_fuel.
  rewrite Nat2Z.inj_succ, Z2Nat.id by apply Z.log2_nonneg.
  destruct (Z.eq_dec i 0) as [->|Hne].
  - cbn. lia.
  - apply Z.log2_spec. lia.
Qed.

Lemma div58_fuel (i : Z) (fuel : nat) :
  0 <= i < 2 ^ Z.of_nat (S fuel) -> 0 <= i / 58 < 2 ^ Z.of_nat fuel.
Proof.
  intros [H0 H1]. rewrite Nat2Z.inj_succ, Z.pow_succ_r in H1 by lia.
  split.
  - apply Z.div_pos; lia.
  - apply Z.div_lt_upper_bound; lia.
Qed.

Lemma b58encode_loop_step (fuel : nat) (i : Z) (s : list byte) :
  0 < i ->
  exists c, slice1 A58 (i mod 58) = [c]
            /\ decode_map A58 c = Some (i mod 58)
            /\ In c A58
            /\ b58encode_loop A58 (S fuel) i s
               = b58encode_loop A58 fuel (i / 58) (c :: s).
Proof.
  intros Hi.
  destruct (alphabet_digit (i mod 58)) as (c & Hc & Hd & Hin & _).
  { apply Z.mod_pos_bound. lia. }
  exists c. repeat split; try assumption.
  cbn [b58encode_loop]. rewrite alphabet_length.
  destruct (Z.eqb_spec i 0); [lia|].
  now rewrite Hc.
Qed.

(** Decoding what the loop prepended gives back the number encoded. *)
Lemma b58decode_encode_loop (fuel : nat) :
  forall (i : Z) (s : list byte),
    0 <= i < 2 ^ Z.of_nat fuel ->
    b58decode_loop A58 (b58encode_loop A58 fuel i s) 0
    = b58decode_loop A58 s i.
Proof.
  induction fuel as [|fuel IH]; intros i s Hi.
  - cbn in Hi. assert (i = 0) by lia. now subst i.
  - destruct (Z.eq_dec i 0) as [->|Hne].
    + reflexivity.
    + destruct (b58encode_loop_step fuel i s) as (c & _ & Hd & _ & ->); [lia|].
      rewrite IH by now apply div58_fuel.
      cbn [b58decode_loop]. rewrite Hd, alphabet_length.
      f_equal. rewrite Z.mul_comm. symmetry. apply Z.div_mod. lia.
Qed.

Lemma b58encode_loop_in_alphabet (fuel : nat) :
  forall (i : Z) (s : list byte),
    0 <= i -> Forall (fun b => In b A58) s ->
    Forall (fun b => In b A58) (b58encode_loop A58 fuel i s).
Proof.
  induction fuel as [|fuel IH]; intros i s Hi Hs; [assumption|].
  destruct (Z.eq_dec i 0) as [->|Hne]; [assumption|].
  destruct (b58encode_loop_step fuel i s) as (c & _ & _ & Hin & ->); [lia|].
  apply IH.
  - apply Z.div_pos; lia.
  - now constructor.
Qed.

(** The most significant digit is not the zero digit, so [lstrip] of the
    zero digit leaves the digits of a positive number alone. *)
Lemma b58encode_loop_lstrip (fuel : nat) :
  forall (i : Z) (s : list byte),
    0 < i < 2 ^ Z.of_nat fuel ->
    bytes_lstrip (firstn 1 A58) (b58encode_loop A58 fuel i s)
    = b58encode_loop A58 fuel i s.
Proof.
  induction fuel as [|fuel IH]; intros i s Hi.
  - cbn in Hi. lia.
  - destruct (b58encode_loop_step fuel i s) as (c & Hc & _ & _ & ->); [lia|].
    destruct (Z.eq_dec (i / 58) 0) as [E|Hne].
    + rewrite E.
      assert (Hs : i mod 58 = i).
      { apply Z.mod_small. split; [lia|].
        destruct (Z.lt_ge_cases i 58) as [|Hge]; [assumption|].
        assert (1 <= i / 58) by (apply Z.div_le_lower_bound; lia). lia. }
      destruct (alphabet_digit (i mod 58)) as (c' & Hc' & _ & _ & Hnz).
      { apply Z.mod_pos_bound. lia. }
      rewrite Hc in Hc'. injection Hc' as <-.
      assert (Hl : b58encode_loop A58 fuel 0 (c :: s) = c :: s)
        by (destruct fuel; reflexivity).
      rewrite Hl. cbn [bytes_lstrip]. rewrite Hnz by lia. reflexivity.
    + apply IH. pose proof (div58_fuel i fuel ltac:(lia)).
      assert (0 <= i / 58) by (apply Z.div_pos; lia). lia.
Qed.

(** *** Stripping *)

Lemma concat_repeat_single {X : Type} (c : X) (k : nat) :
  List.concat (repeat [c] k) = repeat c k.
Proof.
  induction k as [|k IH]; [reflexivity|]. cbn. now rewrite IH.
Qed.

Lemma bytes_lstrip_repeat (c : byte) (k : nat) (d : list byte) :
  bytes_lstrip [c] (repeat c k ++ d) = bytes_lstrip [c] d.
Proof.
  induction k as [|k IH]; [reflexivity|].
  cbn [repeat app bytes_lstrip existsb].
  assert (E : Byte.eqb c c = true) by now apply byte_eqb_eq.
  rewrite E. exact IH.
Qed.

(** A byte string is its leading zero bytes followed by what [lstrip]
    keeps, and what it keeps does not start with a zero byte. *)
Lemma bytes_lstrip_zeros (v : list byte) :
  exists k w,
    v = repeat x00 k ++ w
    /\ bytes_lstrip [x00] v = w
    /\ (w = [] \/ exists b u, w = b :: u /\ b <> x00).
Proof.
  induction v as [|b v (k & w & Hv & Hw & Hhead)].
  - exists O, []. cbn. auto.
  - cbn [bytes_lstrip existsb]. rewrite orb_false_r.
    destruct (Byte.eqb b x00) eqn:E.
    + apply byte_eqb_eq in E. subst b.
      exists (S k), w. cbn [repeat app]. rewrite <- Hv. auto.
    + exists O, (b :: v). cbn. repeat split. right. exists b, v.
      split; [reflexivity|]. intros ->.
      assert (Byte.eqb x00 x00 = true) by reflexivity. congruence.
Qed.

Lemma py_rstrip_no_space (s : string) :
  forallb (fun c => negb (is_space c)) (list_ascii_of_string s) = true ->
  py_rstrip s = s.
Proof.
  unfold py_rstrip.
  induction s as [|c s IH]; [reflexivity|].
  cbn [list_ascii_of_string forallb rstrip_by]. intros H.
  apply andb_prop in H as [Hc Hs]. apply negb_true_iff in Hc.
  rewrite Hc, andb_false_r, IH by assumption. reflexivity.
Qed.

Lemma bytes_rstrip_ws_no_space (v : list byte) :
  forallb (fun b => negb (is_space_byte b)) v = true ->
  bytes_rstrip_ws v = v.
Proof.
  induction v as [|b v IH]; [reflexivity|].
  cbn [forallb bytes_rstrip_ws]. intros H.
  apply andb_prop in H as [Hb Hv]. apply negb_true_iff in Hb.
  rewrite IH by assumption. destruct v; [now rewrite Hb | reflexivity].
Qed.

Lemma list_ascii_of_list_byte (v : list byte) :
  list_ascii_of_string (string_of_list_byte v) = map ascii_of_byte v.
Proof.
  unfold string_of_list_byte. apply list_ascii_of_string_of_list_ascii.
Qed.

(** *** What [b58encode] returns *)

Lemma b58encode_shape (k : nat) (w : list byte) :
  bytes_lstrip [x00] (repeat x00 k ++ w) = w ->
  b58encode (repeat x00 k ++ w)
  = repeat x31 k
      ++ b58encode_loop A58 (loop_fuel (from_bytes_big w)) (from_bytes_big w) [].
Proof.
  intros Hw. unfold b58encode. rewrite Hw.
  unfold b58encode_int. rewrite andb_false_r.
  rewrite length_app, repeat_length.
  replace (k + List.length w - List.length w)%nat with k by lia.
  change (firstn 1 A58) with [x31]. now rewrite concat_repeat_single.
Qed.

Lemma b58encode_in_alphabet (v : list byte) :
  Forall (fun b => In b A58) (b58encode v).
Proof.
  destruct (bytes_lstrip_zeros v) as (k & w & -> & Hw & _).
  rewrite b58encode_shape by assumption.
  apply Forall_app. split.
  - apply Forall_forall. intros b Hb. apply repeat_spec in Hb. subst b.
    cbn. auto.
  - apply b58encode_loop_in_alphabet; [|constructor].
    apply from_bytes_big_bounds.
Qed.

Lemma b58encode_is_ascii (v : list byte) :
  forallb is_ascii_byte (b58encode v) = true.
Proof.
  apply forallb_forall. intros b Hb.
  pose proof (b58encode_in_alphabet v) as H.
  rewrite Forall_forall in H. exact (proj1 (alphabet_char b (H b Hb))).
Qed.

Lemma bytes_decode_b58encode (v : list byte) :
  bytes_decode (b58encode v) = Ok (string_of_list_byte (b58encode v)).
Proof.
  unfold bytes_decode. now rewrite b58encode_is_ascii.
Qed.

(** *** Decoding the encoded text *)

Theorem b58decode_b58encode (v : list byte) :
  b58decode (string_of_list_byte (b58encode v)) = Ok v.
Proof.
  pose proof (b58encode_in_alphabet v) as Hin.
  pose proof (b58encode_is_ascii v) as Hascii.
  rewrite Forall_forall in Hin.
  unfold b58decode.
  rewrite py_rstrip_no_space.
  2:{ rewrite list_ascii_of_list_byte.
      apply forallb_forall. intros c Hc. apply in_map_iff in Hc as (b & <- & Hb).
      apply negb_true_iff. exact (proj2 (proj2 (alphabet_char b (Hin b Hb)))). }
  unfold str_encode_ascii.
  rewrite list_byte_of_string_of_list_byte, Hascii. cbn [bind].
  destruct (bytes_lstrip_zeros v) as (k & w & Hv & Hw & Hhead).
  subst v. rewrite b58encode_shape by assumption.
  set (acc := from_bytes_big w).
  set (ds := b58encode_loop A58 (loop_fuel acc) acc []).
  assert (Hacc : 0 <= acc) by apply from_bytes_big_bounds.
  assert (Hfuel : acc < 2 ^ Z.of_nat (loop_fuel acc)) by now apply loop_fuel_enough.
  assert (Hds : bytes_lstrip (firstn 1 A58) ds = ds).
  { destruct (Z.eq_dec acc 0) as [E|Hne].
    - unfold ds. rewrite E. reflexivity.
    - apply b58encode_loop_lstrip. lia. }
  change (firstn 1 A58) with [x31] in *.
  rewrite bytes_lstrip_repeat, Hds.
  rewrite length_app, repeat_length, Nat2Z.inj_add.
  replace (Z.of_nat k + Z.of_nat (List.length ds) - Z.of_nat (List.length ds))
    with (Z.of_nat k) by lia.
  assert (Hdec : b58decode_int ds A58 = Ok acc).
  { unfold b58decode_int.
    change (existsb (Byte.eqb x20) A58) with false. cbv iota.
    rewrite bytes_rstrip_ws_no_space.
    - unfold ds. rewrite b58decode_encode_loop by lia. reflexivity.
    - apply forallb_forall. intros b Hb. apply negb_true_iff.
      assert (Hall : Forall (fun b => In b A58) ds).
      { apply b58encode_loop_in_alphabet; [assumption|constructor]. }
      rewrite Forall_forall in Hall.
      exact (proj1 (proj2 (alphabet_char b (Hall b Hb)))). }
  rewrite Hdec. cbn [bind].
  assert (Hlen : (bit_length acc + 7) / 8 = Z.of_nat (List.length w)).
  { destruct Hhead as [->|(b & u & -> & Hb)].
    - reflexivity.
    - now apply byte_count_of_bit_length. }
  rewrite Hlen, <- Nat2Z.inj_add.
  replace (k + List.length w)%nat with (List.length (repeat x00 k ++ w))
    by (rewrite length_app, repeat_length; reflexivity).
  replace acc with (from_bytes_big (repeat x00 k ++ w))
    by apply from_bytes_big_zeros.
  apply to_bytes_big_from_bytes.
Qed.

End Base58Facts.


(** ** The encoder on lists of integers *)

Lemma in_byte_range_int (z : Z) :
  in_byte_range (VInt z) = Ok ((0 <=? z) && (z <=? 255)).
Proof.
  unfold in_byte_range. cbn. now destruct (0 <=? z).
Qed.

Lemma py_any_out_of_range (l : list Z) :
  py_any (fun n => ok <- in_byte_range n ;; Ok (negb ok)) (map VInt l)
  = Ok (existsb (fun z => negb ((0 <=? z) && (z <=? 255))) l).
Proof.
  induction l as [|z l IH]; [reflexivity|].
  cbn [map py_any existsb]. rewrite in_byte_range_int. cbn [bind].
  rewrite IH. now destruct (negb ((0 <=? z) && (z <=? 255))).
Qed.

Lemma py_bytes_in_range (l : list Z) :
  Forall (fun z => 0 <= z <= 255) l ->
  exists bs, mapM byte_of_item (map VInt l) = Ok bs /\ map Z_of_byte bs = l.
Proof.
  induction 1 as [|z l Hz _ (bs & Hbs & Hl)].
  - exists []. split; reflexivity.
  - destruct (byte_of_Z_in_range z Hz) as (b & Hb & Hzb).
    exists (b :: bs). split.
    + cbn [map mapM byte_of_item]. unfold index_to_byte.
      rewrite Hb. cbn [bind]. rewrite Hbs. reflexivity.
    + cbn [map]. now rewrite Hzb, Hl.
Qed.

Lemma existsb_out_of_range_false (l : list Z) :
  Forall (fun z => 0 <= z <= 255) l ->
  existsb (fun z => negb ((0 <=? z) && (z <=? 255))) l = false.
Proof.
  induction 1 as [|z l Hz _ IH]; [reflexivity|].
  cbn [existsb]. rewrite IH, orb_false_r. apply negb_false_iff.
  apply andb_true_intro. split; apply Z.leb_le; lia.
Qed.

Lemma existsb_out_of_range_true (l : list Z) :
  Exists (fun z => ~ (0 <= z <= 255)) l ->
  existsb (fun z => negb ((0 <=? z) && (z <=? 255))) l = true.
Proof.
  intros H. apply Exists_exists in H as (z & Hin & Hz).
  apply existsb_exists. exists z. split; [assumption|].
  apply negb_true_iff. apply andb_false_iff.
  destruct (Z.leb_spec 0 z); [|now left].
  destruct (Z.leb_spec z 255); [lia | now right].
Qed.

Lemma length_test (n : nat) :
  negb ((n =? 32) || (n =? 64))%nat = false <-> n = 32%nat \/ n = 64%nat.
Proof.
  rewrite negb_false_iff, orb_true_iff, !Nat.eqb_eq. reflexivity.
Qed.

(** What the encoder returns on a well-formed key. *)
Lemma list_to_base58_valid (l : list Z) :
  (List.length l = 32 \/ List.length l = 64)%nat ->
  Forall (fun z => 0 <= z <= 255) l ->
  exists bs, map Z_of_byte bs = l
             /\ list_to_base58 (VList (map VInt l))
                = Ok (string_of_list_byte (base58.b58encode bs)).
Proof.
  intros Hlen Hrange.
  destruct (py_bytes_in_range l Hrange) as (bs & Hbs & Hl).
  exists bs. split; [assumption|].
  unfold list_to_base58. cbn [py_len bind py_iter py_bytes].
  rewrite length_map. apply length_test in Hlen. rewrite Hlen.
  rewrite py_any_out_of_range, existsb_out_of_range_false by assumption.
  cbn [bind]. rewrite Hbs. cbn [bind].
  apply Base58Facts.bytes_decode_b58encode.
Qed.

(** ** Splitting and stripping *)

Section SplitRuns.

Variable sep : ascii -> bool.

(** Stripping separators from the left end changes no piece. *)
Lemma split_runs_lstrip (p : ascii -> bool) (s : string) :
  (forall c, p c = true -> sep c = true) ->
  split_runs sep (lstrip_by p s) "" = split_runs sep s "".
Proof.
  intros Hp. induction s as [|c s IH]; [reflexivity|].
  cbn [lstrip_by]. destruct (p c) eqn:E; [|reflexivity].
  cbn [split_runs]. rewrite (Hp c E). cbn [is_empty]. exact IH.
Qed.

(** Nor does stripping them from the right end. *)
Lemma split_runs_rstrip (p : ascii -> bool) (s : string) :
  (forall c, p c = true -> sep c = true) ->
  forall cur, split_runs sep (rstrip_by p s) cur = split_runs sep s cur.
Proof.
  intros Hp. induction s as [|c s IH]; intros cur; [reflexivity|].
  cbn [rstrip_by].
  destruct (is_empty (rstrip_by p s) && p c) eqn:E.
  - apply andb_prop in E as [E1 E2].
    destruct (rstrip_by p s) eqn:R; [|discriminate].
    cbn [split_runs]. rewrite (Hp c E2), <- (IH ""). reflexivity.
  - cbn [split_runs]. destruct (sep c); now rewrite ?IH.
Qed.

Lemma split_runs_strip (p : ascii -> bool) (s : string) :
  (forall c, p c = true -> sep c = true) ->
  split_runs sep (strip_by p s) "" = split_runs sep s "".
Proof.
  intros Hp. unfold strip_by.
  now rewrite split_runs_lstrip, split_runs_rstrip.
Qed.

End SplitRuns.

(** Splitting at white space once the commas are blanks is splitting at
    white space and commas. *)
Lemma split_runs_replace_comma (s cur : string) :
  split_runs is_space (py_replace "," " " s) cur
  = split_runs (fun c => is_space c || Ascii.eqb c ",") s cur.
Proof.
  revert cur. induction s as [|c s IH]; intros cur; [reflexivity|].
  cbn [py_replace split_runs].
  destruct (Ascii.eqb c ",") eqn:E.
  - rewrite orb_true_r. change (is_space " ") with true. cbv iota.
    now rewrite !IH.
  - rewrite orb_false_r. now rewrite !IH.
Qed.

Lemma py_split_text (text : string) :
  py_split (py_replace "," " " (py_strip text))
  = split_runs (fun c => is_space c || Ascii.eqb c ",") text "".
Proof.
  unfold py_split, py_strip.
  rewrite split_runs_replace_comma. apply split_runs_strip.
  intros c ->. reflexivity.
Qed.

(** No piece is empty and no piece holds a separator. *)
Lemma split_runs_pieces (sep : ascii -> bool) (s : string) :
  forall cur,
    forallb (fun c => negb (sep c)) (list_ascii_of_string cur) = true ->
    Forall (fun x => x <> "" /\
                     forallb (fun c => negb (sep c)) (list_ascii_of_string x) = true)
           (split_runs sep s cur).
Proof.
  assert (Happ : forall a b, list_ascii_of_string (a ++ b)
                             = (list_ascii_of_string a ++ list_ascii_of_string b)%list).
  { induction a as [|x a IHa]; intros b; [reflexivity|]. cbn. now rewrite IHa. }
  induction s as [|c s IH]; intros cur Hcur.
  - cbn [split_runs]. destruct cur; cbn [is_empty]; constructor.
    + split; [discriminate | assumption].
    + constructor.
  - cbn [split_runs]. destruct (sep c) eqn:E.
    + destruct cur as [|d cur]; cbn [is_empty].
      * apply IH. reflexivity.
      * constructor; [split; [discriminate | assumption]|]. apply IH. reflexivity.
    + apply IH. rewrite Happ, forallb_app, Hcur. cbn. now rewrite E.
Qed.

(** A successful [mapM] pairs the items with the results, in order. *)
Lemma mapM_ok {A B : Type} (f : A -> result B) (l : list A) (r : list B) :
  mapM f l = Ok r <-> Forall2 (fun x y => f x = Ok y) l r.
Proof.
  revert r. induction l as [|x l IH]; intros r.
  - cbn. split.
    + intros H. injection H as <-. constructor.
    + intros H. inversion H. reflexivity.
  - cbn [mapM]. split.
    + destruct (f x) as [y|e] eqn:E; [|discriminate]. cbn [bind].
      destruct (mapM f l) as [ys|e] eqn:E'; [|discriminate]. cbn [bind].
      intros H. injection H as <-. constructor; [assumption|]. now apply IH.
    + intros H. inversion H as [|? y ? ys Hx Hl]; subst.
      rewrite Hx. cbn [bind]. apply IH in Hl. rewrite Hl. reflexivity.
Qed.

Lemma int_list_of_ok (tokens : list string) (v : value) :
  int_list_of tokens = Ok v ->
  exists zs, v = VList (map VInt zs)
             /\ Forall2 (fun t z => py_int t = Ok z) tokens zs.
Proof.
  unfold int_list_of. destruct (mapM py_int tokens) as [zs|e] eqn:E; [|discriminate].
  cbn [bind]. intros H. injection H as <-.
  exists zs. split; [reflexivity|]. now apply mapM_ok.
Qed.

(** ** Decimal digits *)

Lemma digit_char_spec (d : Z) :
  0 <= d <= 9 ->
  is_digit (digit_char d) = true
  /\ digit_value (digit_char d) = d
  /\ (d <> 0 -> Ascii.eqb (digit_char d) "0" = false).
Proof.
  intros Hd.
  assert (H : d = 0 \/ d = 1 \/ d = 2 \/ d = 3 \/ d = 4 \/ d = 5 \/ d = 6
              \/ d = 7 \/ d = 8 \/ d = 9) by lia.
  destruct H as [->|[->|[->|[->|[->|[->|[->|[->|[->| ->]]]]]]]]];
    (split; [reflexivity|]; split; [reflexivity|]);
    intros Hne; try reflexivity; lia.
Qed.

Lemma is_digit_class (c : ascii) :
  is_digit c = true ->
  Ascii.eqb c "-" = false /\ Ascii.eqb c "+" = false /\ Ascii.eqb c "_" = false
  /\ Ascii.eqb c "[" = false /\ Ascii.eqb c "(" = false
  /\ Ascii.eqb c "{" = false /\ Ascii.eqb c double_quote = false
  /\ Ascii.eqb c "n" = false /\ Ascii.eqb c "t" = false /\ Ascii.eqb c "f" = false
  /\ is_space c = false /\ is_int_space c = false.
Proof.
  destruct c as [[] [] [] [] [] [] [] []]; vm_compute; intros H;
    try discriminate H; repeat split.
Qed.

Lemma int_digits_all_digits (s : string) :
  all_digits s = true ->
  forall acc prev,
    int_digits s acc prev
    = if is_empty s && negb prev then None else Some (digits_value s acc).
Proof.
  induction s as [|c s IH]; intros Hs acc prev.
  - cbn. now destruct prev.
  - cbn [all_digits] in Hs. apply andb_prop in Hs as [Hc Hs].
    cbn [int_digits digits_value is_empty andb]. rewrite Hc, (IH Hs). cbn.
    now rewrite andb_false_r.
Qed.

Lemma span_all_digits (p : ascii -> bool) (s rest : string) :
  (forall c, is_digit c = true -> p c = true) ->
  all_digits s = true ->
  match rest with String c _ => p c = false | EmptyString => True end ->
  span p (s ++ rest) = (s, rest).
Proof.
  intros Hp Hs Hrest. induction s as [|c s IH].
  - cbn [append]. destruct rest as [|c r]; [reflexivity|].
    cbn [span]. now rewrite Hrest.
  - cbn [all_digits] in Hs. apply andb_prop in Hs as [Hc Hs].
    cbn [append span]. rewrite (Hp c Hc), (IH Hs). reflexivity.
Qed.

Lemma dec_fuel_enough (n : Z) : 0 <= n -> n < 2 ^ Z.of_nat (dec_fuel n).
Proof. exact (Base58Facts.loop_fuel_enough n). Qed.

Lemma div10_fuel (n : Z) (fuel : nat) :
  0 <= n < 2 ^ Z.of_nat (S fuel) -> 0 <= n / 10 < 2 ^ Z.of_nat fuel.
Proof.
  intros [H0 H1]. rewrite Nat2Z.inj_succ, Z.pow_succ_r in H1 by lia.
  split.
  - apply Z.div_pos; lia.
  - apply Z.div_lt_upper_bound; lia.
Qed.

Lemma dec_digits_all_digits (fuel : nat) :
  forall n acc,
    0 <= n -> all_digits acc = true -> all_digits (dec_digits fuel n acc) = true.
Proof.
  induction fuel as [|fuel IH]; intros n acc Hn Hacc; [assumption|].
  cbn [dec_digits].
  assert (Hd : all_digits (String (digit_char (n mod 10)) acc) = true).
  { cbn [all_digits]. rewrite Hacc, andb_true_r.
    apply digit_char_spec. pose proof (Z.mod_pos_bound n 10). lia. }
  destruct (n / 10 =? 0); [assumption|].
  apply IH; [apply Z.div_pos; lia | assumption].
Qed.

Lemma dec_digits_value (fuel : nat) :
  forall n acc,
    0 <= n < 2 ^ Z.of_nat fuel ->
    digits_value (dec_digits fuel n acc) 0 = digits_value acc n.
Proof.
  induction fuel as [|fuel IH]; intros n acc Hn.
  - cbn in Hn. assert (n = 0) by lia. now subst n.
  - cbn [dec_digits].
    assert (Hdv : digit_value (digit_char (n mod 10)) = n mod 10).
    { apply digit_char_spec. pose proof (Z.mod_pos_bound n 10). lia. }
    assert (Hn10 : n = n / 10 * 10 + n mod 10).
    { rewrite Z.mul_comm. apply Z.div_mod. lia. }
    destruct (Z.eqb_spec (n / 10) 0) as [E|E].
    + cbn [digits_value]. rewrite Hdv. f_equal. lia.
    + rewrite IH by now apply div10_fuel.
      cbn [digits_value]. rewrite Hdv. f_equal. lia.
Qed.

(** The text of a positive number starts with a digit that is not zero. *)
Lemma dec_digits_head (fuel : nat) :
  forall n acc,
    0 < n < 2 ^ Z.of_nat fuel ->
    exists c t, dec_digits fuel n acc = String c t /\ Ascii.eqb c "0" = false.
Proof.
  induction fuel as [|fuel IH]; intros n acc Hn.
  - cbn in Hn. lia.
  - cbn [dec_digits]. destruct (Z.eqb_spec (n / 10) 0) as [E|E].
    + eexists _, _. split; [reflexivity|].
      assert (Hs : n mod 10 = n).
      { apply Z.mod_small. split; [lia|].
        destruct (Z.lt_ge_cases n 10) as [|Hge]; [assumption|].
        assert (1 <= n / 10) by (apply Z.div_le_lower_bound; lia). lia. }
      pose proof (Z.mod_pos_bound n 10 ltac:(lia)) as Hlt.
      rewrite Hs in *. apply digit_char_spec; lia.
    + apply IH.
      assert (H10 : 0 <= n / 10 < 2 ^ Z.of_nat fuel)
        by (apply div10_fuel; split; [lia | apply Hn]).
      lia.
Qed.

Lemma str_of_nonneg_digits (n : Z) :
  0 <= n ->
  all_digits (str_of_nonneg n) = true
  /\ digits_value (str_of_nonneg n) 0 = n
  /\ exists c t, str_of_nonneg n = String c t
                 /\ is_digit c = true
                 /\ Ascii.eqb c "0" = (n =? 0).
Proof.
  intros Hn. unfold str_of_nonneg.
  assert (Hall : all_digits (dec_digits (dec_fuel n) n "") = true)
    by now apply dec_digits_all_digits.
  split; [exact Hall|]. split.
  - rewrite dec_digits_value; [reflexivity|].
    split; [assumption | now apply dec_fuel_enough].
  - destruct (Z.eqb_spec n 0) as [->|Hne].
    + exists "0"%char, "". repeat split.
    + destruct (dec_digits_head (dec_fuel n) n "") as (c & t & E & Hc).
      { split; [lia | now apply dec_fuel_enough]. }
      exists c, t. rewrite E in Hall |- *. cbn [all_digits] in Hall.
      apply andb_prop in Hall as [Hd _]. repeat split; assumption.
Qed.

Lemma int_digits_str_of_nonneg (n : Z) :
  0 <= n -> int_digits (str_of_nonneg n) 0 false = Some n.
Proof.
  intros Hn. destruct (str_of_nonneg_digits n Hn) as (Hall & Hv & c & t & E & _).
  rewrite int_digits_all_digits by assumption.
  rewrite E at 1. cbn [is_empty andb]. now rewrite Hv.
Qed.

(** ** Stripping a text that has nothing to strip *)

Lemma rstrip_by_none (p : ascii -> bool) (s : string) :
  forallb (fun c => negb (p c)) (list_ascii_of_string s) = true ->
  rstrip_by p s = s.
Proof.
  induction s as [|c s IH]; [reflexivity|].
  cbn [list_ascii_of_string forallb rstrip_by]. intros H.
  apply andb_prop in H as [Hc Hs]. apply negb_true_iff in Hc.
  now rewrite Hc, andb_false_r, IH.
Qed.

Lemma strip_by_none (p : ascii -> bool) (s : string) :
  forallb (fun c => negb (p c)) (list_ascii_of_string s) = true ->
  strip_by p s = s.
Proof.
  intros H. unfold strip_by. rewrite rstrip_by_none by assumption.
  destruct s as [|c s]; [reflexivity|].
  cbn [list_ascii_of_string forallb] in H. apply andb_prop in H as [Hc _].
  apply negb_true_iff in Hc. cbn [lstrip_by]. now rewrite Hc.
Qed.

(** A text that ends with a character outside [p] is not cut at the right. *)
Lemma rstrip_by_last (p : ascii -> bool) (a : string) (c : ascii) :
  p c = false -> rstrip_by p (a ++ String c "") = a ++ String c "".
Proof.
  intros Hc. induction a as [|x a IH].
  - cbn. now rewrite Hc.
  - cbn [append rstrip_by]. rewrite IH.
    destruct a; reflexivity.
Qed.

Lemma all_digits_no_space (p : ascii -> bool) (s : string) :
  (forall c, is_digit c = true -> p c = false) ->
  all_digits s = true ->
  forallb (fun c => negb (p c)) (list_ascii_of_string s) = true.
Proof.
  intros Hp. induction s as [|c s IH]; [reflexivity|].
  cbn [all_digits list_ascii_of_string forallb]. intros H.
  apply andb_prop in H as [Hc Hs]. now rewrite (Hp c Hc), IH.
Qed.

(** ** [int] reads back what [str] wrote *)

Lemma str_of_int_cases (z : Z) :
  (z < 0 /\ str_of_int z = String "-" (str_of_nonneg (- z)))
  \/ (0 <= z /\ str_of_int z = str_of_nonneg z).
Proof.
  unfold str_of_int. destruct (Z.ltb_spec z 0); [left | right]; auto.
Qed.

Lemma int_signed_str_of_int (z : Z) : int_signed (str_of_int z) = Some z.
Proof.
  unfold int_signed.
  destruct (str_of_int_cases z) as [[Hz ->] | [Hz ->]].
  - cbn [after]. change (Ascii.eqb "-" "-") with true. cbv iota.
    rewrite int_digits_str_of_nonneg by lia. cbn. f_equal. lia.
  - destruct (str_of_nonneg_digits z Hz) as (_ & _ & c & t & E & Hc & _).
    rewrite E. cbn [after].
    destruct (is_digit_class c Hc) as (-> & -> & _).
    rewrite <- E. now apply int_digits_str_of_nonneg.
Qed.

Lemma str_of_int_no_space (p : ascii -> bool) (z : Z) :
  (forall c, is_digit c = true -> p c = false) ->
  p "-"%char = false ->
  forallb (fun c => negb (p c)) (list_ascii_of_string (str_of_int z)) = true.
Proof.
  intros Hp Hminus.
  destruct (str_of_int_cases z) as [[Hz ->] | [Hz ->]].
  - cbn [list_ascii_of_string forallb]. rewrite Hminus. cbn [negb andb].
    apply all_digits_no_space; [assumption|].
    apply str_of_nonneg_digits. lia.
  - apply all_digits_no_space; [assumption|].
    now apply str_of_nonneg_digits.
Qed.

Theorem py_int_str_of_int (z : Z) : py_int (str_of_int z) = Ok z.
Proof.
  unfold py_int. rewrite strip_by_none.
  - now rewrite int_signed_str_of_int.
  - apply str_of_int_no_space; [|reflexivity].
    intros c Hc. apply (is_digit_class c Hc).
Qed.

(** ** The parsers on the text of an integer array *)

Lemma append_assoc (a b c : string) : (a ++ b) ++ c = a ++ (b ++ c).
Proof.
  induction a as [|x a IH]; [reflexivity|]. cbn. now rewrite IH.
Qed.

Lemma length_append (a b : string) :
  String.length (a ++ b) = (String.length a + String.length b)%nat.
Proof.
  induction a as [|x a IH]; [reflexivity|]. cbn. now rewrite IH.
Qed.

Lemma prefix_head (a c : ascii) (s t : string) :
  Ascii.eqb c a = false -> prefix (String a s) (String c t) = false.
Proof.
  intros H. cbn [prefix]. destruct (ascii_dec a c) as [->|]; [|reflexivity].
  now rewrite Ascii.eqb_refl in H.
Qed.

Lemma ends_item_head (rest : string) :
  ends_item rest ->
  exists c r, rest = String c r
    /\ is_digit c = false /\ Ascii.eqb c "_" = false /\ Ascii.eqb c "." = false
    /\ Ascii.eqb c "e" = false /\ Ascii.eqb c "E" = false
    /\ json.is_ws c = false /\ pyast.is_blank c = false
    /\ pyast.is_newline c = false /\ pyast.is_ident_char c = false
    /\ (128 <=? N_of_ascii c)%N = false.
Proof.
  intros (c & r & -> & [-> | ->]); eexists _, _; (split; [reflexivity|]);
    repeat split.
Qed.

(** The text of an integer starts with a minus sign or a digit. *)
Lemma str_of_int_head (z : Z) :
  exists c t, str_of_int z = String c t
              /\ (if z <? 0 then c = "-"%char else is_digit c = true).
Proof.
  unfold str_of_int. destruct (Z.ltb_spec z 0) as [Hz|Hz].
  - eexists _, _. split; reflexivity.
  - destruct (str_of_nonneg_digits z Hz) as (_ & _ & c & t & E & Hc & _).
    exists c, t. split; assumption.
Qed.

Lemma json_match_integer (z : Z) (rest : string) :
  ends_item rest ->
  json.match_integer (str_of_int z ++ rest) = Some (str_of_int z, rest).
Proof.
  intros Hrest.
  destruct (ends_item_head rest Hrest) as (x & r & -> & Hx & _).
  assert (Hspan : forall n, 0 <= n ->
            span is_digit (str_of_nonneg n ++ String x r)
            = (str_of_nonneg n, String x r)).
  { intros n Hn. apply span_all_digits; [auto | | exact Hx].
    now apply str_of_nonneg_digits. }
  assert (Hpos : forall n, 0 <= n ->
            match str_of_nonneg n ++ String x r with
            | String c t =>
                if Ascii.eqb c "0" then Some ("0", t)
                else if is_digit c then
                  let (ds, r0) := span is_digit (str_of_nonneg n ++ String x r) in
                  Some (ds, r0)
                else None
            | EmptyString => None
            end = Some (str_of_nonneg n, String x r)).
  { intros n Hn. specialize (Hspan n Hn).
    destruct (str_of_nonneg_digits n Hn) as (_ & _ & c & t & E & Hc & H0).
    destruct (Z.eqb_spec n 0) as [->|Hne].
    - reflexivity.
    - rewrite E in Hspan |- *. cbn [append] in Hspan |- *.
      rewrite H0, Hc. now rewrite Hspan. }
  unfold json.match_integer.
  destruct (str_of_int_cases z) as [[Hz ->] | [Hz ->]].
  - cbn [append after]. change (Ascii.eqb "-" "-") with true. cbv iota.
    specialize (Hpos (- z) ltac:(lia)) as Hp. specialize (Hspan (- z) ltac:(lia)).
    destruct (str_of_nonneg (- z) ++ String x r) as [|c t]; [discriminate|].
    destruct (Ascii.eqb c "0").
    + injection Hp as <- <-. reflexivity.
    + destruct (is_digit c); [|discriminate]. rewrite Hspan in Hp |- *.
      reflexivity.
  - destruct (str_of_nonneg_digits z Hz) as (_ & _ & c & t & E & Hc & _).
    assert (Hafter : after "-" (str_of_nonneg z ++ String x r) = None).
    { rewrite E. cbn [append after]. now destruct (is_digit_class c Hc) as (-> & _). }
    rewrite Hafter. specialize (Hpos z Hz) as Hp. specialize (Hspan z Hz).
    destruct (str_of_nonneg z ++ String x r) as [|c' t']; [discriminate|].
    destruct (Ascii.eqb c' "0").
    + injection Hp as <- <-. reflexivity.
    + destruct (is_digit c'); [|discriminate]. rewrite Hspan in Hp |- *.
      exact Hp.
Qed.

Lemma json_match_number (z : Z) (rest : string) :
  ends_item rest ->
  json.match_number (str_of_int z ++ rest) = Some (str_of_int z, "", "", rest).
Proof.
  intros Hrest. unfold json.match_number.
  rewrite json_match_integer by assumption.
  destruct (ends_item_head rest Hrest) as (x & r & -> & _ & _ & Hdot & He & HE & _).
  unfold json.match_frac, json.match_exp. cbn [after].
  rewrite Hdot, He, HE. reflexivity.
Qed.

Lemma json_scan_int (fuel depth : nat) (z : Z) (rest : string) :
  ends_item rest ->
  json.scan_once (S fuel) depth (str_of_int z ++ rest) = Ok (VInt z, rest).
Proof.
  intros Hrest. cbn [json.scan_once].
  pose proof (json_match_number z rest Hrest) as Hnum.
  destruct (str_of_int_head z) as (c & t & E & Hc).
  rewrite E in Hnum |- *. cbn [append] in Hnum |- *.
  assert (Hclass : Ascii.eqb c double_quote = false /\ Ascii.eqb c "{" = false
                   /\ Ascii.eqb c "[" = false /\ Ascii.eqb c "n" = false
                   /\ Ascii.eqb c "t" = false /\ Ascii.eqb c "f" = false).
  { destruct (z <? 0).
    - subst c. repeat split.
    - destruct (is_digit_class c Hc) as (_ & _ & _ & H1 & _ & H2 & H3 & H4 & H5 & H6 & _).
      repeat split; assumption. }
  destruct Hclass as (H1 & H2 & H3 & H4 & H5 & H6).
  rewrite H1, H2, H3. cbn [orb].
  rewrite !prefix_head by assumption.
  rewrite Hnum. cbn [is_empty andb]. rewrite <- E, py_int_str_of_int.
  reflexivity.
Qed.

Lemma items_text_cons (z y : Z) (l : list Z) :
  String.concat ", " (map str_of_int (z :: y :: l))
  = str_of_int z ++ ", " ++ String.concat ", " (map str_of_int (y :: l)).
Proof. reflexivity. Qed.

(** The text of a non-empty run of integers starts like an integer. *)
Lemma items_text_head (z : Z) (l : list Z) :
  exists c t, String.concat ", " (map str_of_int (z :: l)) = String c t
              /\ (if z <? 0 then c = "-"%char else is_digit c = true).
Proof.
  destruct (str_of_int_head z) as (c & t & E & Hc).
  destruct l as [|y l].
  - exists c, t. split; assumption.
  - rewrite items_text_cons, E. cbn [append].
    eexists _, _. split; [reflexivity | assumption].
Qed.

Lemma json_array_items_unfold (fuel depth : nat) (s : string) :
  json.array_items (S fuel) depth s
  = (r <- json.scan_once fuel depth s ;;
     match after "]" (json.skip_ws (snd r)), after "," (json.skip_ws (snd r)) with
     | Some r', _ => Ok ([fst r], r')
     | None, Some r' =>
         rest <- json.array_items fuel depth (json.skip_ws r') ;;
         Ok (fst r :: fst rest, snd rest)
     | None, None => json.decode_error "Expecting ',' delimiter"
     end).
Proof. reflexivity. Qed.

Lemma json_skip_ws_items (z : Z) (l : list Z) (t : string) :
  json.skip_ws (String " " (String.concat ", " (map str_of_int (z :: l)) ++ t))
  = String.concat ", " (map str_of_int (z :: l)) ++ t
  /\ json.skip_ws (String.concat ", " (map str_of_int (z :: l)) ++ t)
     = String.concat ", " (map str_of_int (z :: l)) ++ t
  /\ after "]" (String.concat ", " (map str_of_int (z :: l)) ++ t) = None.
Proof.
  destruct (items_text_head z l) as (c & u & E & Hc).
  rewrite E. cbn [append].
  assert (Hws : json.is_ws c = false /\ Ascii.eqb c "]" = false).
  { destruct (z <? 0).
    - now subst c.
    - destruct c as [[] [] [] [] [] [] [] []]; vm_compute in Hc |- *;
        split; congruence. }
  destruct Hws as [Hws Hbr].
  unfold json.skip_ws. cbn [lstrip_by after].
  change (json.is_ws " ") with true. cbv iota. rewrite Hws, Hbr. auto.
Qed.

Lemma json_array_items (l : list Z) :
  l <> [] ->
  forall fuel depth rest,
    (List.length l < fuel)%nat ->
    json.array_items fuel depth
      (String.concat ", " (map str_of_int l) ++ String "]" rest)
    = Ok (map VInt l, rest).
Proof.
  induction l as [|z l IH]; [congruence|]. intros _ fuel depth rest Hfuel.
  destruct fuel as [|fuel]; cbn [List.length] in Hfuel; [lia|].
  rewrite json_array_items_unfold.
  destruct fuel as [|fuel]; [lia|].
  destruct l as [|y l].
  - cbn [map String.concat].
    rewrite json_scan_int by (eexists _, _; split; [reflexivity | now right]).
    reflexivity.
  - rewrite items_text_cons, !append_assoc.
    rewrite json_scan_int by (eexists _, _; split; [reflexivity | now left]).
    cbn [bind fst snd append].
    replace (json.skip_ws
               (String ","
                  (String " "
                     (String.concat ", " (map str_of_int (y :: l)) ++ String "]" rest))))
      with (String ","
              (String " "
                 (String.concat ", " (map str_of_int (y :: l)) ++ String "]" rest)))
      by reflexivity.
    cbn [after]. change (Ascii.eqb "," "]") with false.
    change (Ascii.eqb "," ",") with true. cbv iota.
    rewrite (proj1 (json_skip_ws_items y l (String "]" rest))).
    rewrite (IH ltac:(discriminate) (S fuel) depth rest)
      by (cbn [List.length] in Hfuel |- *; lia).
    reflexivity.
Qed.

Lemma items_text_length (z : Z) (l : list Z) :
  (List.length (z :: l)
   <= String.length (String.concat ", " (map str_of_int (z :: l))))%nat.
Proof.
  revert z. induction l as [|y l IH]; intros z;
    destruct (str_of_int_head z) as (c & t & E & _).
  - cbn [map String.concat]. rewrite E. cbn. lia.
  - rewrite items_text_cons, !length_append.
    specialize (IH y). rewrite E. cbn [List.length String.length] in IH |- *. lia.
Qed.

Lemma json_loads_array_text (l : list Z) :
  json.loads (json_array_text l) = Ok (VList (map VInt l)).
Proof.
  unfold json.loads, json_array_text. cbn [append].
  replace (json.skip_ws (String "[" (String.concat ", " (map str_of_int l) ++ "]")))
    with (String "[" (String.concat ", " (map str_of_int l) ++ "]"))
    by reflexivity.
  unfold parse_fuel. cbn [String.length].
  replace (2 * S (String.length (String.concat ", " (map str_of_int l) ++ "]")) + 2)%nat
    with (S (S (S (2 * String.length (String.concat ", " (map str_of_int l) ++ "]") + 1))))
    by lia.
  set (fuel := S (S (2 * String.length (String.concat ", " (map str_of_int l) ++ "]") + 1))).
  cbn [json.scan_once]. change (Ascii.eqb "[" double_quote) with false.
  change (Ascii.eqb "[" "{") with false. change (Ascii.eqb "[" "[") with true.
  cbn [orb]. cbv iota. unfold max_depth.
  destruct l as [|z l].
  - reflexivity.
  - destruct (json_skip_ws_items z l "]") as (_ & Hskip & Hafter).
    rewrite Hskip, Hafter.
    rewrite json_array_items.
    + reflexivity.
    + discriminate.
    + unfold fuel. rewrite length_append. cbn [String.length].
      pose proof (items_text_length z l). lia.
Qed.

Lemma pyast_parse_expr_unfold (fuel depth : nat) (inner : bool) (s : string) :
  pyast.parse_expr (S fuel) (S depth) inner s
  = match pyast.skip inner s with
    | EmptyString => pyast.syntax_error
    | String c t =>
        if Ascii.eqb c "[" then
          r <- pyast.parse_elts fuel depth (Some "]"%char) t ;;
          Ok (pyast.List_ (fst (fst r)), snd r)
        else if Ascii.eqb c "(" then
          r <- pyast.parse_elts fuel depth (Some ")"%char) t ;;
          match r with
          | ([e], false, rest) => Ok (e, rest)
          | (elts, _, rest) => Ok (pyast.Tuple elts, rest)
          end
        else if Ascii.eqb c "-" then
          r <- pyast.parse_expr fuel depth inner t ;;
          Ok (pyast.UnaryOp pyast.USub (fst r), snd r)
        else if Ascii.eqb c "+" then
          r <- pyast.parse_expr fuel depth inner t ;;
          Ok (pyast.UnaryOp pyast.UAdd (fst r), snd r)
        else if is_digit c then pyast.parse_number (String c t)
        else if pyast.is_ident_start c then pyast.parse_name (String c t)
        else if Ascii.eqb c "]" || Ascii.eqb c ")" || Ascii.eqb c ","
        then pyast.syntax_error
        else unmodelled
    end.
Proof. reflexivity. Qed.

Lemma pyast_parse_elts_unfold (fuel depth : nat) (close : option ascii)
    (s : string) :
  pyast.parse_elts (S fuel) depth close s
  = let inner := pyast.is_some close in
    let s := pyast.skip inner s in
    match pyast.closes close s with
    | Some rest => Ok ([], false, rest)
    | None =>
        r <- pyast.parse_expr fuel depth inner s ;;
        let s1 := pyast.skip inner (snd r) in
        match pyast.closes close s1 with
        | Some rest => Ok ([fst r], false, rest)
        | None =>
            match s1 with
            | String c t =>
                if Ascii.eqb c "," then
                  more <- pyast.parse_elts fuel depth close t ;;
                  Ok (fst r :: fst (fst more), true, snd more)
                else if Ascii.eqb c "]" || Ascii.eqb c ")"
                then pyast.syntax_error
                else unmodelled
            | EmptyString => pyast.syntax_error
            end
        end
    end.
Proof. reflexivity. Qed.

Lemma pyast_parse_number_nonneg (n : Z) (rest : string) :
  0 <= n -> ends_item rest ->
  pyast.parse_number (str_of_nonneg n ++ rest)
  = Ok (pyast.Constant (VInt n), rest).
Proof.
  intros Hn Hrest.
  destruct (ends_item_head rest Hrest)
    as (x & r & -> & Hx & Hu & Hdot & _ & _ & _ & _ & _ & Hid & Hhi).
  destruct (str_of_nonneg_digits n Hn) as (Hall & _ & c & t & E & Hc & H0).
  unfold pyast.parse_number.
  rewrite (span_all_digits (fun c => is_digit c || Ascii.eqb c "_")).
  - rewrite Hid, Hdot, Hhi. cbn [orb].
    rewrite int_digits_str_of_nonneg by assumption.
    destruct (Z.eqb_spec n 0) as [->|Hne].
    + reflexivity.
    + rewrite E, prefix_head by assumption. reflexivity.
  - intros d ->. reflexivity.
  - assumption.
  - now rewrite Hx, Hu.
Qed.

Lemma pyast_skip_digit (inner : bool) (c : ascii) (t : string) :
  is_digit c = true \/ c = "-"%char ->
  pyast.skip inner (String c t) = String c t.
Proof.
  intros H. unfold pyast.skip. cbn [lstrip_by].
  assert (E : pyast.is_blank c = false /\ pyast.is_newline c = false).
  { destruct H as [H | ->]; [|split; reflexivity].
    destruct c as [[] [] [] [] [] [] [] []]; vm_compute in H |- *;
      split; congruence. }
  destruct E as [-> ->]. now rewrite andb_false_r.
Qed.

Lemma pyast_parse_expr_nonneg (fuel depth : nat) (inner : bool) (n : Z)
    (rest : string) :
  0 <= n -> ends_item rest ->
  pyast.parse_expr (S fuel) (S depth) inner (str_of_nonneg n ++ rest)
  = Ok (pyast.Constant (VInt n), rest).
Proof.
  intros Hn Hrest. rewrite pyast_parse_expr_unfold.
  pose proof (pyast_parse_number_nonneg n rest Hn Hrest) as Hnum.
  destruct (str_of_nonneg_digits n Hn) as (_ & _ & c & t & E & Hc & _).
  rewrite E in Hnum |- *. cbn [append] in Hnum |- *.
  rewrite pyast_skip_digit by now left.
  destruct (is_digit_class c Hc) as (H1 & H2 & _ & H3 & H4 & _).
  now rewrite H3, H4, H1, H2, Hc.
Qed.

Lemma pyast_parse_expr_int (fuel depth : nat) (inner : bool) (z : Z)
    (rest : string) :
  ends_item rest ->
  pyast.parse_expr (S (S fuel)) (S (S depth)) inner (str_of_int z ++ rest)
  = Ok (ast_of_int z, rest).
Proof.
  intros Hrest. unfold ast_of_int.
  destruct (str_of_int_cases z) as [[Hz ->] | [Hz ->]].
  - rewrite pyast_parse_expr_unfold. cbn [append].
    rewrite pyast_skip_digit by now right.
    change (Ascii.eqb "-" "[") with false. change (Ascii.eqb "-" "(") with false.
    change (Ascii.eqb "-" "-") with true. cbv iota.
    rewrite pyast_parse_expr_nonneg by (lia || assumption).
    destruct (Z.ltb_spec z 0); [reflexivity | lia].
  - rewrite pyast_parse_expr_nonneg by assumption.
    destruct (Z.ltb_spec z 0); [lia | reflexivity].
Qed.

Lemma pyast_skip_items (z : Z) (l : list Z) (t : string) :
  pyast.skip true (String " " (String.concat ", " (map str_of_int (z :: l)) ++ t))
  = String.concat ", " (map str_of_int (z :: l)) ++ t
  /\ pyast.skip true (String.concat ", " (map str_of_int (z :: l)) ++ t)
     = String.concat ", " (map str_of_int (z :: l)) ++ t
  /\ after "]" (String.concat ", " (map str_of_int (z :: l)) ++ t) = None.
Proof.
  destruct (items_text_head z l) as (c & u & E & Hc).
  rewrite E. cbn [append].
  assert (H : is_digit c = true \/ c = "-"%char)
    by (destruct (z <? 0); auto).
  assert (Hsp : pyast.skip true (String " " (String c (u ++ t)))
                = pyast.skip true (String c (u ++ t))) by reflexivity.
  rewrite Hsp, pyast_skip_digit by assumption.
  repeat split. cbn [after].
  destruct H as [H | ->]; [|reflexivity].
  destruct c as [[] [] [] [] [] [] [] []]; vm_compute in H |- *; congruence.
Qed.

Lemma pyast_parse_elts_items (l : list Z) :
  l <> [] ->
  forall fuel depth rest,
    (List.length l + 1 < fuel)%nat ->
    exists comma,
      pyast.parse_elts fuel (S (S depth)) (Some "]"%char)
        (String.concat ", " (map str_of_int l) ++ String "]" rest)
      = Ok (map ast_of_int l, comma, rest).
Proof.
  induction l as [|z l IH]; [congruence|]. intros _ fuel depth rest Hfuel.
  cbn [List.length] in Hfuel.
  destruct fuel as [|[|[|fuel]]]; try lia.
  rewrite pyast_parse_elts_unfold. cbv zeta. cbn [pyast.is_some pyast.closes].
  destruct (pyast_skip_items z l (String "]" rest)) as (_ & Hskip & Hafter).
  rewrite Hskip, Hafter.
  destruct l as [|y l].
  - cbn [map String.concat].
    rewrite pyast_parse_expr_int
      by (eexists _, _; split; [reflexivity | now right]).
    exists false. reflexivity.
  - rewrite items_text_cons, !append_assoc.
    rewrite pyast_parse_expr_int
      by (eexists _, _; split; [reflexivity | now left]).
    cbn [bind fst snd append].
    replace (pyast.skip true
               (String ","
                  (String " "
                     (String.concat ", " (map str_of_int (y :: l)) ++ String "]" rest))))
      with (String ","
              (String " "
                 (String.concat ", " (map str_of_int (y :: l)) ++ String "]" rest)))
      by reflexivity.
    cbn [after]. change (Ascii.eqb "," "]") with false.
    change (Ascii.eqb "," ",") with true. cbv iota.
    (* the next call first skips the blank *)
    assert (Hnext : pyast.parse_elts (S (S fuel)) (S (S depth)) (Some "]"%char)
                      (String " "
                         (String.concat ", " (map str_of_int (y :: l))
                            ++ String "]" rest))
                    = pyast.parse_elts (S (S fuel)) (S (S depth)) (Some "]"%char)
                        (String.concat ", " (map str_of_int (y :: l))
                           ++ String "]" rest)).
    { rewrite !pyast_parse_elts_unfold. cbv zeta. cbn [pyast.is_some].
      destruct (pyast_skip_items y l (String "]" rest)) as (-> & -> & _).
      reflexivity. }
    rewrite Hnext.
    destruct (IH ltac:(discriminate) (S (S fuel)) depth rest) as (comma & ->).
    { cbn [List.length] in Hfuel |- *. lia. }
    exists true. reflexivity.
Qed.

Lemma pyast_convert_list (elts : list pyast.ast) :
  pyast.convert (pyast.List_ elts)
  = (vs <- mapM pyast.convert elts ;; Ok (VList vs)).
Proof.
  cbn [pyast.convert]. f_equal.
  induction elts as [|e elts IH]; [reflexivity|].
  cbn [mapM]. now rewrite IH.
Qed.

Lemma pyast_convert_int (z : Z) : pyast.convert (ast_of_int z) = Ok (VInt z).
Proof.
  unfold ast_of_int. destruct (z <? 0); cbn [pyast.convert].
  - now rewrite Z.opp_involutive.
  - reflexivity.
Qed.

Lemma pyast_convert_ints (l : list Z) :
  mapM pyast.convert (map ast_of_int l) = Ok (map VInt l).
Proof.
  induction l as [|z l IH]; [reflexivity|].
  cbn [map mapM]. now rewrite pyast_convert_int, IH.
Qed.

Lemma pyast_parse_array_text (l : list Z) :
  pyast.parse (json_array_text l) = Ok (pyast.List_ (map ast_of_int l)).
Proof.
  unfold pyast.parse, json_array_text, parse_fuel. cbn [append String.length].
  set (items := String.concat ", " (map str_of_int l)).
  replace (2 * S (String.length (items ++ "]")) + 2)%nat
    with (S (S (S (S (2 * String.length (items ++ "]"))))))
    by lia.
  rewrite pyast_parse_elts_unfold. cbv zeta. cbn [pyast.is_some].
  replace (pyast.skip false (String "[" (items ++ "]")))
    with (String "[" (items ++ "]")) by reflexivity.
  replace (pyast.closes None (String "[" (items ++ "]")))
    with (@None string) by reflexivity.
  unfold max_depth. rewrite pyast_parse_expr_unfold.
  replace (pyast.skip false (String "[" (items ++ "]")))
    with (String "[" (items ++ "]")) by reflexivity.
  change (Ascii.eqb "[" "[") with true. cbv iota.
  assert (Helts : exists comma,
            pyast.parse_elts (S (S (2 * String.length (items ++ "]")))) 99
              (Some "]"%char) (items ++ "]")
            = Ok (map ast_of_int l, comma, "")).
  { subst items. destruct l as [|z l].
    - exists false. reflexivity.
    - apply (pyast_parse_elts_items (z :: l) ltac:(discriminate) _ 97).
      rewrite length_append. cbn [String.length].
      pose proof (items_text_length z l). lia. }
  destruct Helts as (comma & ->). reflexivity.
Qed.

Theorem literal_eval_array_text (l : list Z) :
  pyast.literal_eval (json_array_text l) = Ok (VList (map VInt l)).
Proof.
  unfold pyast.literal_eval.
  replace (lstrip_by pyast.is_blank (json_array_text l)) with (json_array_text l)
    by reflexivity.
  rewrite pyast_parse_array_text. cbn [bind].
  now rewrite pyast_convert_list, pyast_convert_ints.
Qed.

Lemma py_strip_array_text (l : list Z) :
  py_strip (json_array_text l) = json_array_text l.
Proof.
  unfold py_strip, strip_by, json_array_text.
  replace ("[" ++ String.concat ", " (map str_of_int l) ++ "]")
    with (("[" ++ String.concat ", " (map str_of_int l)) ++ "]")
    by apply append_assoc.
  rewrite rstrip_by_last by reflexivity. reflexivity.
Qed.

(** ** Trimming the pieces of a comma-separated text *)

Section Strip.

Variable p : ascii -> bool.

Lemma lstrip_by_idem (s : string) : lstrip_by p (lstrip_by p s) = lstrip_by p s.
Proof.
  induction s as [|c s IH]; [reflexivity|].
  cbn [lstrip_by]. destruct (p c) eqn:E; [exact IH|].
  cbn [lstrip_by]. now rewrite E.
Qed.

Lemma rstrip_by_idem (s : string) : rstrip_by p (rstrip_by p s) = rstrip_by p s.
Proof.
  induction s as [|c s IH]; [reflexivity|].
  cbn [rstrip_by]. destruct (is_empty (rstrip_by p s) && p c) eqn:E; [reflexivity|].
  cbn [rstrip_by]. now rewrite IH, E.
Qed.

Lemma rstrip_lstrip_comm (s : string) :
  rstrip_by p (lstrip_by p s) = lstrip_by p (rstrip_by p s).
Proof.
  induction s as [|c s IH]; [reflexivity|].
  cbn [lstrip_by rstrip_by]. destruct (p c) eqn:E.
  - rewrite IH. destruct (rstrip_by p s) eqn:R; cbn [is_empty andb].
    + reflexivity.
    + cbn [lstrip_by]. now rewrite E.
  - rewrite andb_false_r. cbn [rstrip_by lstrip_by].
    now rewrite E, andb_false_r.
Qed.

Lemma strip_by_idem (s : string) : strip_by p (strip_by p s) = strip_by p s.
Proof.
  unfold strip_by.
  now rewrite rstrip_lstrip_comm, rstrip_by_idem, lstrip_by_idem.
Qed.

Lemma rstrip_by_snoc (a : string) (c : ascii) :
  p c = true -> rstrip_by p (a ++ String c "") = rstrip_by p a.
Proof.
  intros Hc. induction a as [|x a IH].
  - cbn. now rewrite Hc.
  - cbn [append rstrip_by]. now rewrite IH.
Qed.

Lemma strip_by_snoc (a : string) (c : ascii) :
  p c = true -> strip_by p (a ++ String c "") = strip_by p a.
Proof.
  intros Hc. unfold strip_by. now rewrite rstrip_by_snoc.
Qed.

Lemma strip_by_cons (c : ascii) (s : string) :
  p c = true -> strip_by p (String c s) = strip_by p s.
Proof.
  intros Hc. unfold strip_by. cbn [rstrip_by]. rewrite Hc, andb_true_r.
  destruct (rstrip_by p s); cbn [is_empty lstrip_by]; [reflexivity|].
  now rewrite Hc.
Qed.

Lemma all_chars_lstrip (f : ascii -> bool) (s : string) :
  all_chars f s = true -> all_chars f (lstrip_by p s) = true.
Proof.
  unfold all_chars. induction s as [|c s IH]; [reflexivity|].
  cbn [lstrip_by]. destruct (p c); [|trivial].
  cbn [list_ascii_of_string forallb]. intros H.
  apply andb_prop in H as [_ H]. now apply IH.
Qed.

Lemma all_chars_rstrip (f : ascii -> bool) (s : string) :
  all_chars f s = true -> all_chars f (rstrip_by p s) = true.
Proof.
  unfold all_chars. induction s as [|c s IH]; [reflexivity|].
  cbn [rstrip_by list_ascii_of_string forallb]. intros H.
  apply andb_prop in H as [Hc H].
  destruct (is_empty (rstrip_by p s) && p c); [reflexivity|].
  cbn [list_ascii_of_string forallb]. now rewrite Hc, IH.
Qed.

Lemma all_chars_strip (f : ascii -> bool) (s : string) :
  all_chars f s = true -> all_chars f (strip_by p s) = true.
Proof.
  intros H. unfold strip_by. now apply all_chars_lstrip, all_chars_rstrip.
Qed.

End Strip.

(** Two classes that agree on the characters of a text strip it alike. *)
Lemma strip_by_ext (p q : ascii -> bool) (s : string) :
  all_chars (fun c => Bool.eqb (p c) (q c)) s = true ->
  strip_by p s = strip_by q s.
Proof.
  intros H. unfold strip_by.
  assert (R : rstrip_by p s = rstrip_by q s).
  { revert H. unfold all_chars. induction s as [|c s IH]; [reflexivity|].
    cbn [list_ascii_of_string forallb rstrip_by]. intros H.
    apply andb_prop in H as [Hc H]. apply eqb_prop in Hc.
    now rewrite (IH H), Hc. }
  rewrite R.
  assert (Hr : all_chars (fun c => Bool.eqb (p c) (q c)) (rstrip_by q s) = true)
    by now apply all_chars_rstrip.
  revert Hr. generalize (rstrip_by q s). clear. unfold all_chars.
  intros s. induction s as [|c s IH]; [reflexivity|].
  cbn [list_ascii_of_string forallb lstrip_by]. intros H.
  apply andb_prop in H as [Hc H]. apply eqb_prop in Hc.
  rewrite Hc. destruct (q c); [now apply IH | reflexivity].
Qed.

Lemma int_space_is_space (c : ascii) : is_int_space c = true -> is_space c = true.
Proof.
  destruct c as [[] [] [] [] [] [] [] []]; vm_compute; congruence.
Qed.

Lemma evenly_trimmed_agree (s : string) :
  all_chars evenly_trimmed s = true ->
  all_chars (fun c => Bool.eqb (is_int_space c) (is_space c)) s = true.
Proof.
  unfold all_chars. induction s as [|c s IH]; [reflexivity|].
  cbn [list_ascii_of_string forallb]. intros H.
  apply andb_prop in H as [Hc H]. rewrite (IH H), andb_true_r.
  unfold evenly_trimmed in Hc. pose proof (int_space_is_space c) as Hsub.
  destruct (is_int_space c), (is_space c); cbn in *; try reflexivity;
    try discriminate. now specialize (Hsub eq_refl).
Qed.

(** On such a text [int] reads the text and the trimmed text alike. *)
Lemma py_int_strip (x : string) (z : Z) :
  all_chars evenly_trimmed x = true ->
  py_int x = Ok z <-> py_int (py_strip x) = Ok z.
Proof.
  intros Hx. unfold py_int, py_strip.
  rewrite (strip_by_ext is_int_space is_space x) by now apply evenly_trimmed_agree.
  rewrite (strip_by_ext is_int_space is_space (strip_by is_space x))
    by now apply evenly_trimmed_agree, all_chars_strip.
  rewrite strip_by_idem.
  destruct (int_signed (strip_by is_space x)); split; intros H;
    try discriminate H; exact H.
Qed.

Lemma append_nil_r (s : string) : s ++ "" = s.
Proof.
  induction s as [|c s IH]; [reflexivity|]. cbn. now rewrite IH.
Qed.

(** The piece being read is the head of the first piece returned. *)
Lemma split_on_cur (sep : ascii) (s : string) :
  forall cur,
    split_on sep s cur
    = match split_on sep s "" with
      | h :: r => (cur ++ h) :: r
      | [] => [cur]
      end.
Proof.
  induction s as [|c s IH]; intros cur.
  - cbn. now rewrite append_nil_r.
  - cbn [split_on]. destruct (Ascii.eqb c sep).
    + now rewrite append_nil_r.
    + rewrite (IH (cur ++ String c "")), (IH ("" ++ String c "")).
      destruct (split_on sep s "") as [|h r]; [reflexivity|].
      now rewrite append_assoc.
Qed.

Lemma split_on_nonempty (sep : ascii) (s : string) :
  forall cur, split_on sep s cur <> [].
Proof.
  induction s as [|c s IH]; intros cur; cbn [split_on]; [discriminate|].
  destruct (Ascii.eqb c sep); [discriminate | apply IH].
Qed.

Section SplitStrip.

Variable p : ascii -> bool.
Variable sep : ascii.
Hypothesis sep_kept : p sep = false.

Lemma sep_differs (c : ascii) : p c = true -> Ascii.eqb c sep = false.
Proof.
  intros Hc. destruct (Ascii.eqb_spec c sep) as [->|]; [congruence | reflexivity].
Qed.

Lemma split_on_lstrip (s : string) :
  map (strip_by p) (split_on sep (lstrip_by p s) "")
  = map (strip_by p) (split_on sep s "").
Proof.
  induction s as [|c s IH]; [reflexivity|].
  cbn [lstrip_by]. destruct (p c) eqn:E; [|reflexivity].
  rewrite IH. cbn [split_on append]. rewrite (sep_differs c E).
  rewrite (split_on_cur sep s (String c "")).
  pose proof (split_on_nonempty sep s "") as Hne.
  destruct (split_on sep s "") as [|h r]; [congruence|].
  cbn [map append]. now rewrite strip_by_cons.
Qed.

Lemma split_on_rstrip (s : string) :
  forall cur,
    map (strip_by p) (split_on sep (rstrip_by p s) cur)
    = map (strip_by p) (split_on sep s cur).
Proof.
  induction s as [|c s IH]; intros cur; [reflexivity|].
  cbn [rstrip_by]. destruct (is_empty (rstrip_by p s) && p c) eqn:E.
  - apply andb_prop in E as [E1 E2].
    cbn [split_on]. rewrite (sep_differs c E2), <- IH.
    destruct (rstrip_by p s); [|discriminate].
    cbn [split_on map]. now rewrite strip_by_snoc.
  - cbn [split_on]. destruct (Ascii.eqb c sep); cbn [map]; now rewrite IH.
Qed.

Lemma split_on_strip (s : string) :
  map (strip_by p) (split_on sep (strip_by p s) "")
  = map (strip_by p) (split_on sep s "").
Proof.
  unfold strip_by at 2. now rewrite split_on_lstrip, split_on_rstrip.
Qed.

End SplitStrip.

Lemma all_chars_app (f : ascii -> bool) (a b : string) :
  all_chars f (a ++ b) = all_chars f a && all_chars f b.
Proof.
  unfold all_chars. induction a as [|c a IH]; [reflexivity|].
  cbn [append list_ascii_of_string forallb]. now rewrite IH, andb_assoc.
Qed.

Lemma split_on_all_chars (f : ascii -> bool) (sep : ascii) (s : string) :
  forall cur,
    all_chars f s = true -> all_chars f cur = true ->
    Forall (fun x => all_chars f x = true) (split_on sep s cur).
Proof.
  induction s as [|c s IH]; intros cur Hs Hcur.
  - repeat constructor. assumption.
  - unfold all_chars in Hs. cbn [list_ascii_of_string forallb] in Hs.
    apply andb_prop in Hs as [Hc Hs].
    cbn [split_on]. destruct (Ascii.eqb c sep).
    + constructor; [assumption|]. now apply IH.
    + apply IH; [assumption|].
      rewrite all_chars_app, Hcur. unfold all_chars. cbn. now rewrite Hc.
Qed.

Lemma filter_map_comm {A B : Type} (f : B -> bool) (g : A -> B) (l : list A) :
  filter f (map g l) = map g (filter (fun x => f (g x)) l).
Proof.
  induction l as [|x l IH]; [reflexivity|].
  cbn [map filter]. destruct (f (g x)); cbn [map]; now rewrite IH.
Qed.

Lemma mapM_map_equiv {A B : Type} (f : A -> result B) (g : A -> A)
    (l : list A) (P : A -> Prop) :
  (forall x y, P x -> (f x = Ok y <-> f (g x) = Ok y)) ->
  Forall P l ->
  forall r, mapM f l = Ok r <-> mapM f (map g l) = Ok r.
Proof.
  intros Hfg Hl. induction Hl as [|x l Hx Hl IH]; intros r; [reflexivity|].
  cbn [map]. rewrite !mapM_ok. split; intros H;
    inversion H as [|? y ? ys H1 H2]; subst; constructor.
  - now apply (proj1 (Hfg x y Hx)).
  - apply mapM_ok, IH, mapM_ok. assumption.
  - now apply (proj2 (Hfg x y Hx)).
  - apply mapM_ok, IH, mapM_ok. assumption.
Qed.

(** With none of the separators U+001C to U+001F in the contents, what the
    loader does with a [.csv] text is the rule as worded. *)
Lemma csv_tokens_by_the_words (text : string) (v : value) :
  all_chars evenly_trimmed text = true ->
  int_list_of
    (filter (fun x => negb (is_empty (py_strip x)))
       (py_split_on "," (py_strip text))) = Ok v
  <-> csv_by_the_words text = Ok v.
Proof.
  intros Hplain. unfold csv_by_the_words, py_split_on, py_strip.
  rewrite <- (split_on_strip is_space "," eq_refl text).
  rewrite filter_map_comm.
  set (A := filter (fun x => negb (is_empty (strip_by is_space x)))
              (split_on "," (strip_by is_space text) "")).
  assert (HA : Forall (fun x => all_chars evenly_trimmed x = true) A).
  { unfold A. apply Forall_forall. intros x Hx. apply filter_In in Hx as [Hx _].
    revert x Hx. apply Forall_forall. apply split_on_all_chars; [|reflexivity].
    now apply all_chars_strip. }
  assert (E : forall r, mapM py_int A = Ok r
                        <-> mapM py_int (map (strip_by is_space) A) = Ok r).
  { apply mapM_map_equiv with (P := fun x => all_chars evenly_trimmed x = true).
    - intros x y Hx. now apply py_int_strip.
    - exact HA. }
  unfold int_list_of. split; intros H.
  - destruct (mapM py_int A) as [r|e]; [|discriminate].
    now rewrite (proj1 (E r) eq_refl).
  - destruct (mapM py_int (map (strip_by is_space) A)) as [r|e]; [|discriminate].
    now rewrite (proj2 (E r) eq_refl).
Qed.

(** * The claims *)

(** C1. For every integer sequence of length 32 or 64 whose elements lie
    in [0,255], [list_to_base58] returns a string, and standard base58
    decoding of that string yields the bytes of the original sequence. *)
Theorem list_to_base58_roundtrip (l : list Z) :
  (List.length l = 32 \/ List.length l = 64)%nat ->
  Forall (fun z => 0 <= z <= 255) l ->
  exists s bs,
    list_to_base58 (VList (map VInt l)) = Ok s
    /\ base58.b58decode s = Ok bs
    /\ map Z_of_byte bs = l.
Proof.
  intros Hlen Hrange.
  destruct (list_to_base58_valid l Hlen Hrange) as (bs & Hl & Henc).
  exists (string_of_list_byte (base58.b58encode bs)), bs.
  split; [assumption|]. split; [|assumption].
  apply Base58Facts.b58decode_b58encode.
Qed.

Lemma list_to_base58_roundtrip_witness :
  exists s bs,
    list_to_base58 (VList (map VInt (map Z.of_nat (seq 100 32)))) = Ok s
    /\ base58.b58decode s = Ok bs
    /\ map Z_of_byte bs = map Z.of_nat (seq 100 32).
Proof.
  apply (list_to_base58_roundtrip (map Z.of_nat (seq 100 32))).
  - left. reflexivity.
  - repeat constructor; cbn; lia.
Defined.

(** C2. For every list, whatever its items, whose length is neither 32 nor
    64, [list_to_base58] raises the length error that names the length, and
    so not the range error. *)
Theorem length_mismatch_error (items : list value) :
  List.length items <> 32%nat ->
  List.length items <> 64%nat ->
  list_to_base58 (VList items)
  = Raise (mk_exn ValueError
             ("Expected 32 or 64 integers, got "
                ++ str_of_int (Z.of_nat (List.length items))))
  /\ list_to_base58 (VList items)
     <> Raise (mk_exn ValueError "All list items must be in 0-255 range").
Proof.
  intros H32 H64.
  assert (E : list_to_base58 (VList items)
              = Raise (mk_exn ValueError
                         ("Expected 32 or 64 integers, got "
                            ++ str_of_int (Z.of_nat (List.length items))))).
  { unfold list_to_base58. cbn [py_len bind].
    destruct (negb ((List.length items =? 32) || (List.length items =? 64))%nat) eqn:T.
    - reflexivity.
    - apply length_test in T. tauto. }
  split; [exact E|].
  rewrite E. intros H. injection H as H. discriminate H.
Qed.

Lemma length_mismatch_error_witness :
  list_to_base58 (VList [VInt 1; VInt 2; VInt 3])
  = Raise (mk_exn ValueError "Expected 32 or 64 integers, got 3")
  /\ list_to_base58 (VList [VInt 1; VInt 2; VInt 3])
     <> Raise (mk_exn ValueError "All list items must be in 0-255 range").
Proof.
  apply (length_mismatch_error [VInt 1; VInt 2; VInt 3]); cbn; lia.
Defined.

(** C3. For every integer sequence of length 32 or 64 with an element
    outside [0,255], [list_to_base58] raises the range error, with the
    message [All list items must be in 0-255 range]. *)
Theorem range_violation_error (l : list Z) :
  (List.length l = 32 \/ List.length l = 64)%nat ->
  Exists (fun z => ~ (0 <= z <= 255)) l ->
  list_to_base58 (VList (map VInt l))
  = Raise (mk_exn ValueError "All list items must be in 0-255 range").
Proof.
  intros Hlen Hbad.
  unfold list_to_base58. cbn [py_len bind py_iter].
  rewrite length_map. apply length_test in Hlen. rewrite Hlen.
  rewrite py_any_out_of_range, existsb_out_of_range_true by assumption.
  reflexivity.
Qed.

Lemma range_violation_error_witness :
  list_to_base58 (VList (map VInt (256 :: repeat 0 31)))
  = Raise (mk_exn ValueError "All list items must be in 0-255 range").
Proof.
  apply (range_violation_error (256 :: repeat 0 31)).
  - left. reflexivity.
  - apply Exists_cons_hd. lia.
Defined.

(** C4. On 32 zeros [list_to_base58] returns the base58 text of 32 zero
    bytes, which is the character [1] thirty-two times: the output of the
    reference encoder on those bytes. *)
Theorem thirty_two_zeros :
  list_to_base58 (VList (repeat (VInt 0) 32))
  = Ok (string_of_list_byte (repeat x31 32))
  /\ string_of_list_byte (repeat x31 32) = "11111111111111111111111111111111"
  /\ base58.b58encode (repeat x00 32) = repeat x31 32.
Proof.
  repeat split; vm_compute; reflexivity.
Qed.

(** C9. Whatever the parsers and the file system answer: an exception of
    the loader or of the encoder ends as the line [Error: <description>] on
    the error stream, exit status 1 and nothing on the output stream; a
    success ends as the base58 text and a line break on the output stream,
    nothing on the error stream and exit status 0. *)
Theorem main_reports (P : parsers) (fs : filesystem) (source : string) :
  (forall e, load_list P fs source = Raise e ->
     main P fs source
     = {| stdout := ""; stderr := "Error: " ++ exn_msg e ++ newline;
          exit_code := 1 |})
  /\ (forall key_ints e,
        load_list P fs source = Ok key_ints ->
        list_to_base58 key_ints = Raise e ->
        main P fs source
        = {| stdout := ""; stderr := "Error: " ++ exn_msg e ++ newline;
             exit_code := 1 |})
  /\ (forall key_ints b58,
        load_list P fs source = Ok key_ints ->
        list_to_base58 key_ints = Ok b58 ->
        main P fs source
        = {| stdout := b58 ++ newline; stderr := ""; exit_code := 0 |}).
Proof.
  unfold main. repeat split.
  - intros e ->. reflexivity.
  - intros v e -> H. cbn [bind]. now rewrite H.
  - intros v b58 -> H. cbn [bind]. now rewrite H.
Qed.

Lemma main_reports_witness :
  main cpython (fun _ => Missing) "[1,2,3]"
  = {| stdout := "";
       stderr := "Error: Expected 32 or 64 integers, got 3" ++ newline;
       exit_code := 1 |}.
Proof.
  apply (proj1 (proj2 (main_reports cpython (fun _ => Missing) "[1,2,3]"))
           (VList [VInt 1; VInt 2; VInt 3])
           (mk_exn ValueError "Expected 32 or 64 integers, got 3"));
    vm_compute; reflexivity.
Defined.




(** A tuple of 32 integers given as the literal is encoded like the list. *)
Example tuple_literal_is_encoded :
  main cpython (fun _ => Missing) ("(" ++ zeros_text 32 ++ ")")
  = {| stdout := "11111111111111111111111111111111" ++ newline;
       stderr := ""; exit_code := 0 |}.
Proof. vm_compute. reflexivity. Qed.

(** C10. The [.json] path hands over what [json.loads] returns, unchecked;
    for the array of 32 numbers that starts with [1.5] the length test and
    the range test of the encoder pass, the conversion to bytes raises a
    [TypeError], and the line printed carries neither the length message nor
    the range message. *)
Theorem json_float_fails_at_bytes :
  let text := ("[1.5, " ++ zeros_text 31 ++ "]") in
  let fs : filesystem :=
    fun p => if String.eqb p "key.json" then Present (Ok text) else Missing in
  let items := VFloat (3 # 2) :: repeat (VInt 0) 31 in
  (forall P, load_list P fs "key.json" = json_loads P (py_strip text))
  /\ load_list cpython fs "key.json" = Ok (VList items)
  /\ List.length items = 32%nat
  /\ py_any (fun n => ok <- in_byte_range n ;; Ok (negb ok)) items = Ok false
  /\ list_to_base58 (VList items)
     = Raise (mk_exn TypeError
                "'float' object cannot be interpreted as an integer")
  /\ main cpython fs "key.json"
     = {| stdout := "";
          stderr := "Error: 'float' object cannot be interpreted as an integer"
                      ++ newline;
          exit_code := 1 |}.
Proof.
  cbv zeta. split; [intros P; reflexivity|].
  repeat split; vm_compute; reflexivity.
Qed.

(** C7. For an existing file whose suffix is neither [.json] nor [.csv]
    the loader cuts the contents at every run of white space and commas and
    applies [int] to each piece, in the order of the pieces. *)
Theorem load_list_text_file (P : parsers) (fs : filesystem)
    (source text : string) :
  fs source = Present (Ok text) ->
  py_suffix source <> ".json" ->
  py_suffix source <> ".csv" ->
  let tokens := split_runs (fun c => is_space c || Ascii.eqb c ",") text "" in
  load_list P fs source = int_list_of tokens
  /\ Forall (fun x => x <> "" /\
                      forallb (fun c => negb (is_space c || Ascii.eqb c ","))
                        (list_ascii_of_string x) = true) tokens
  /\ (forall v, load_list P fs source = Ok v ->
        exists zs, v = VList (map VInt zs)
                   /\ Forall2 (fun t z => py_int t = Ok z) tokens zs).
Proof.
  intros Hfs Hjson Hcsv tokens.
  assert (E : load_list P fs source = int_list_of tokens).
  { unfold load_list. rewrite Hfs. cbn [bind].
    apply String.eqb_neq in Hjson, Hcsv. rewrite Hjson, Hcsv.
    now rewrite py_split_text. }
  split; [exact E|]. split.
  - apply split_runs_pieces. reflexivity.
  - intros v Hv. rewrite E in Hv. now apply int_list_of_ok.
Qed.

Lemma load_list_text_file_witness :
  load_list cpython
    (fun p => if String.eqb p "key.txt" then Present (Ok " 1 2,3 , 4") else Missing)
    "key.txt"
  = Ok (VList [VInt 1; VInt 2; VInt 3; VInt 4]).
Proof.
  refine (eq_trans
            (proj1 (load_list_text_file cpython
                      (fun p => if String.eqb p "key.txt"
                                then Present (Ok " 1 2,3 , 4") else Missing)
                      "key.txt" " 1 2,3 , 4" eq_refl _ _))
            _).
  - vm_compute. discriminate.
  - vm_compute. discriminate.
  - vm_compute. reflexivity.
Defined.



(** C6, as stated, is contradicted. The contents are [1,], the separator
    U+001C and [2]: trimmed and read piece by piece they are the list
    [1, 2], but the loader keeps the second piece untrimmed and [int]
    rejects it. *)
Lemma csv_separator_piece_rejected :
  let text := "1," ++ String (ascii_of_N 28) "2" in
  let fs : filesystem :=
    fun p => if String.eqb p "key.csv" then Present (Ok text) else Missing in
  csv_by_the_words text = Ok (VList [VInt 1; VInt 2])
  /\ load_list cpython fs "key.csv"
     = Raise (mk_exn ValueError
                "invalid literal for int() with base 10: '\x1c2'").
Proof.
  split; vm_compute; reflexivity.
Qed.

(** C6, amended. For an existing file with the suffix [.csv] the loader
    strips the contents, cuts them at the commas, drops the pieces that are
    blank and applies [int] to each piece left, as it stands. When the
    contents hold none of the separators U+001C to U+001F this is cutting
    at the commas, trimming each piece, dropping the empty ones and reading
    each one left as an integer. *)
Theorem load_list_csv_file (P : parsers) (fs : filesystem)
    (source text : string) :
  fs source = Present (Ok text) ->
  py_suffix source = ".csv" ->
  load_list P fs source
  = int_list_of
      (filter (fun x => negb (is_empty (py_strip x)))
         (py_split_on "," (py_strip text)))
  /\ (all_chars evenly_trimmed text = true ->
      forall v, load_list P fs source = Ok v <-> csv_by_the_words text = Ok v).
Proof.
  intros Hfs Hcsv.
  assert (E : load_list P fs source
              = int_list_of
                  (filter (fun x => negb (is_empty (py_strip x)))
                     (py_split_on "," (py_strip text)))).
  { unfold load_list. rewrite Hfs, Hcsv. reflexivity. }
  split; [exact E|].
  intros Hplain v. rewrite E. now apply csv_tokens_by_the_words.
Qed.

Lemma load_list_csv_file_witness :
  load_list cpython
    (fun p => if String.eqb p "key.csv" then Present (Ok "1,2,3, 4") else Missing)
    "key.csv"
  = Ok (VList [VInt 1; VInt 2; VInt 3; VInt 4]).
Proof.
  apply (proj2 (load_list_csv_file cpython
                  (fun p => if String.eqb p "key.csv"
                            then Present (Ok "1,2,3, 4") else Missing)
                  "key.csv" "1,2,3, 4" eq_refl eq_refl) eq_refl).
  vm_compute. reflexivity.
Defined.

(** * Further properties *)

(** ** The encoder *)

Lemma in_range_decide (l : list Z) :
  existsb (fun z => negb ((0 <=? z) && (z <=? 255))) l = false
  <-> Forall (fun z => 0 <= z <= 255) l.
Proof.
  split.
  - intros H. apply Forall_forall. intros z Hz.
    destruct (Z.leb_spec 0 z) as [H0|H0], (Z.leb_spec z 255) as [H1|H1];
      try lia; exfalso;
      (assert (E : existsb (fun z => negb ((0 <=? z) && (z <=? 255))) l = true);
       [apply existsb_exists; exists z; split; [assumption|];
        apply negb_true_iff, andb_false_iff;
        first [left; apply Z.leb_gt; lia | right; apply Z.leb_gt; lia]
       | congruence]).
  - apply existsb_out_of_range_false.
Qed.

(** What the encoder does with a list of integers, case by case. *)
Lemma list_to_base58_int_cases (l : list Z) :
  list_to_base58 (VList (map VInt l))
  = if negb ((List.length l =? 32) || (List.length l =? 64))%nat then
      Raise (mk_exn ValueError
               ("Expected 32 or 64 integers, got "
                  ++ str_of_int (Z.of_nat (List.length l))))
    else if existsb (fun z => negb ((0 <=? z) && (z <=? 255))) l then
      Raise (mk_exn ValueError "All list items must be in 0-255 range")
    else
      b <- mapM byte_of_item (map VInt l) ;; bytes_decode (base58.b58encode b).
Proof.
  unfold list_to_base58. cbn [py_len bind py_iter py_bytes]. rewrite length_map.
  destruct (negb ((List.length l =? 32) || (List.length l =? 64))%nat);
    [reflexivity|].
  rewrite py_any_out_of_range. cbn [bind].
  now destruct (existsb (fun z => negb ((0 <=? z) && (z <=? 255))) l).
Qed.

(** X1. On a list of integers the two tests of the encoder are all that can
    fail: it returns a text exactly when the length is 32 or 64 and every
    item lies in [0,255], and what it raises otherwise is a [ValueError];
    the conversion to bytes never fails behind the tests. *)
Theorem list_to_base58_integers (l : list Z) :
  ((exists s, list_to_base58 (VList (map VInt l)) = Ok s)
   <-> (List.length l = 32 \/ List.length l = 64)%nat
       /\ Forall (fun z => 0 <= z <= 255) l)
  /\ (forall e, list_to_base58 (VList (map VInt l)) = Raise e ->
                exn_class e = ValueError).
Proof.
  rewrite list_to_base58_int_cases. split; [split|].
  - intros (s & H).
    destruct (negb ((List.length l =? 32) || (List.length l =? 64))%nat) eqn:T;
      [discriminate|].
    destruct (existsb (fun z => negb ((0 <=? z) && (z <=? 255))) l) eqn:R;
      [discriminate|].
    split; [now apply length_test | now apply in_range_decide].
  - intros [Hlen Hrange].
    destruct (list_to_base58_valid l Hlen Hrange) as (bs & _ & E).
    rewrite list_to_base58_int_cases in E.
    exists (string_of_list_byte (base58.b58encode bs)). exact E.
  - intros e.
    destruct (negb ((List.length l =? 32) || (List.length l =? 64))%nat) eqn:T.
    + intros H. injection H as <-. reflexivity.
    + destruct (existsb (fun z => negb ((0 <=? z) && (z <=? 255))) l) eqn:R.
      * intros H. injection H as <-. reflexivity.
      * apply in_range_decide in R.
        destruct (py_bytes_in_range l R) as (bs & -> & _). cbn [bind].
        rewrite Base58Facts.bytes_decode_b58encode. discriminate.
Qed.

(** X2. Two lists of integers that are encoded to the same text are the
    same list. *)
Theorem list_to_base58_injective (l1 l2 : list Z) (s : string) :
  list_to_base58 (VList (map VInt l1)) = Ok s ->
  list_to_base58 (VList (map VInt l2)) = Ok s ->
  l1 = l2.
Proof.
  intros H1 H2.
  assert (Hinv : forall l, list_to_base58 (VList (map VInt l)) = Ok s ->
            exists bs, map Z_of_byte bs = l /\ base58.b58decode s = Ok bs).
  { intros l H.
    destruct (proj1 (proj1 (list_to_base58_integers l)) (ex_intro _ s H))
      as [Hlen Hrange].
    destruct (list_to_base58_valid l Hlen Hrange) as (bs & Hl & E).
    rewrite H in E. injection E as ->.
    exists bs. split; [assumption | apply Base58Facts.b58decode_b58encode]. }
  destruct (Hinv l1 H1) as (b1 & <- & D1).
  destruct (Hinv l2 H2) as (b2 & <- & D2).
  rewrite D1 in D2. now injection D2 as ->.
Qed.

Lemma list_to_base58_injective_witness :
  map Z.of_nat (seq 7 32) = map Z.of_nat (seq 7 32).
Proof.
  apply (list_to_base58_injective (map Z.of_nat (seq 7 32))
           (map Z.of_nat (seq 7 32))
           "USxhdMQhkMoYC52vEK6giwuQeu2F5SWuXeqS3EeyidB");
    vm_compute; reflexivity.
Defined.

(** What a successful call returns, whatever the object given. *)
Lemma list_to_base58_ok_inv (v : value) (s : string) :
  list_to_base58 v = Ok s ->
  exists b, py_bytes v = Ok b /\ s = string_of_list_byte (base58.b58encode b).
Proof.
  unfold list_to_base58.
  destruct (py_len v) as [n|e]; [|discriminate]. cbn [bind].
  destruct (negb ((n =? 32) || (n =? 64))%nat); [discriminate|].
  destruct (py_iter v) as [items|e]; [|discriminate]. cbn [bind].
  destruct (py_any _ items) as [[|]|e]; try discriminate. cbn [bind].
  destruct (py_bytes v) as [b|e]; [|discriminate]. cbn [bind].
  rewrite Base58Facts.bytes_decode_b58encode. intros H. injection H as <-.
  exists b. split; reflexivity.
Qed.

(** X3. Whatever object the encoder is given, a text it returns is made of
    the 58 characters of the alphabet only. *)
Theorem list_to_base58_alphabet (v : value) (s : string) :
  list_to_base58 v = Ok s ->
  Forall (fun c => In c (list_ascii_of_string alphabet_text))
         (list_ascii_of_string s).
Proof.
  intros H. destruct (list_to_base58_ok_inv v s H) as (b & _ & ->).
  rewrite Base58Facts.list_ascii_of_list_byte.
  pose proof (Base58Facts.b58encode_in_alphabet b) as Hin.
  rewrite Forall_forall in Hin |- *. intros c Hc.
  apply in_map_iff in Hc as (x & <- & Hx).
  change (list_ascii_of_string alphabet_text)
    with (map ascii_of_byte base58.BITCOIN_ALPHABET).
  apply in_map. now apply Hin.
Qed.

Lemma list_to_base58_alphabet_witness :
  Forall (fun c => In c (list_ascii_of_string alphabet_text))
         (list_ascii_of_string "USxhdMQhkMoYC52vEK6giwuQeu2F5SWuXeqS3EeyidB").
Proof.
  apply (list_to_base58_alphabet (VList (map VInt (map Z.of_nat (seq 7 32))))).
  vm_compute. reflexivity.
Defined.

(** ** The length of the text *)

Lemma b58encode_loop_length_ge (fuel : nat) :
  forall i s,
    (List.length s <= List.length (base58.b58encode_loop base58.BITCOIN_ALPHABET fuel i s))%nat.
Proof.
  induction fuel as [|fuel IH]; intros i s; [apply Nat.le_refl|].
  cbn [base58.b58encode_loop]. destruct (i =? 0); [apply Nat.le_refl|].
  etransitivity; [|apply IH]. rewrite length_app. lia.
Qed.

(** A number below [58 ^ D] takes at most [D] digits. *)
Lemma b58encode_loop_length_le (fuel : nat) :
  forall i s D,
    0 <= i < 58 ^ Z.of_nat D ->
    (List.length (base58.b58encode_loop base58.BITCOIN_ALPHABET fuel i s)
     <= D + List.length s)%nat.
Proof.
  induction fuel as [|fuel IH]; intros i s D Hi; [cbn; lia|].
  destruct (Z.eq_dec i 0) as [->|Hne]; [cbn; lia|].
  destruct (Base58Facts.b58encode_loop_step fuel i s) as (c & _ & _ & _ & ->); [lia|].
  destruct D as [|D]; [cbn in Hi; lia|].
  specialize (IH (i / 58) (c :: s) D). cbn [List.length] in IH.
  assert (0 <= i / 58 < 58 ^ Z.of_nat D).
  { rewrite Nat2Z.inj_succ, Z.pow_succ_r in Hi by lia. split.
    - apply Z.div_pos; lia.
    - apply Z.div_lt_upper_bound; lia. }
  specialize (IH ltac:(assumption)). lia.
Qed.

(** A number from [58 ^ D] on takes more than [D] digits. *)
Lemma b58encode_loop_length_gt (fuel : nat) :
  forall i s D,
    58 ^ Z.of_nat D <= i < 2 ^ Z.of_nat fuel ->
    (D + 1 + List.length s
     <= List.length (base58.b58encode_loop base58.BITCOIN_ALPHABET fuel i s))%nat.
Proof.
  induction fuel as [|fuel IH]; intros i s D Hi.
  - pose proof (Z.pow_pos_nonneg 58 (Z.of_nat D)). cbn in Hi. lia.
  - assert (Hpos : 0 < i) by (pose proof (Z.pow_pos_nonneg 58 (Z.of_nat D)); lia).
    destruct (Base58Facts.b58encode_loop_step fuel i s) as (c & _ & _ & _ & ->);
      [assumption|].
    destruct D as [|D].
    + pose proof (b58encode_loop_length_ge fuel (i / 58) (c :: s)) as H.
      cbn [List.length] in H. lia.
    + specialize (IH (i / 58) (c :: s) D). cbn [List.length] in IH.
      assert (58 ^ Z.of_nat D <= i / 58 < 2 ^ Z.of_nat fuel).
      { split.
        - rewrite Nat2Z.inj_succ, Z.pow_succ_r in Hi by lia.
          apply Z.div_le_lower_bound; lia.
        - apply Base58Facts.div58_fuel. lia. }
      specialize (IH ltac:(assumption)). lia.
Qed.

(** Eight bytes fit in eleven digits, and so on by eights. *)
Lemma pow256_le_pow58 (m : nat) :
  256 ^ Z.of_nat m <= 58 ^ ((11 * Z.of_nat m + 7) / 8).
Proof.
  assert (H : forall j r, (r < 8)%nat ->
            256 ^ Z.of_nat (8 * j + r)
            <= 58 ^ ((11 * Z.of_nat (8 * j + r) + 7) / 8)).
  { intros j r Hr.
    replace ((11 * Z.of_nat (8 * j + r) + 7) / 8)
      with (11 * Z.of_nat j + (11 * Z.of_nat r + 7) / 8).
    2:{ rewrite <- Z.div_add_l by lia. f_equal. lia. }
    replace (Z.of_nat (8 * j + r)) with (8 * Z.of_nat j + Z.of_nat r) by lia.
    assert (0 <= (11 * Z.of_nat r + 7) / 8) by (apply Z.div_pos; lia).
    rewrite !Z.pow_add_r, !Z.pow_mul_r by lia.
    apply Z.mul_le_mono_nonneg.
    - apply Z.pow_nonneg. lia.
    - apply Z.pow_le_mono_l. split; [|vm_compute; discriminate].
      vm_compute. discriminate.
    - apply Z.pow_nonneg. lia.
    - do 8 (destruct r as [|r]; [vm_compute; discriminate|]). lia. }
  specialize (H (m / 8)%nat (m mod 8)%nat (Nat.mod_upper_bound m 8 ltac:(lia))).
  now rewrite <- Nat.div_mod_eq in H.
Qed.

Lemma b58encode_length (v : list byte) :
  (List.length v <= List.length (base58.b58encode v))%nat
  /\ Z.of_nat (List.length (base58.b58encode v))
     <= (11 * Z.of_nat (List.length v) + 7) / 8.
Proof.
  destruct (Base58Facts.bytes_lstrip_zeros v) as (k & w & -> & Hw & Hhead).
  rewrite Base58Facts.b58encode_shape by assumption.
  rewrite !length_app, !repeat_length.
  set (acc := base58.from_bytes_big w).
  pose proof (Base58Facts.from_bytes_big_bounds w) as Hacc. fold acc in Hacc.
  pose proof (Base58Facts.loop_fuel_enough acc ltac:(lia)) as Hfuel.
  split.
  - destruct Hhead as [->|(b & u & -> & Hb)]; [cbn; lia|].
    pose proof (b58encode_loop_length_gt (base58.loop_fuel acc) acc [] (List.length u))
      as H.
    cbn [List.length] in H |- *.
    assert (58 ^ Z.of_nat (List.length u) <= acc).
    { unfold acc. rewrite Base58Facts.from_bytes_big_cons.
      pose proof (Base58Facts.from_bytes_big_bounds u).
      pose proof (Z_of_byte_range b).
      assert (Z_of_byte b <> 0) by now rewrite Z_of_byte_zero.
      assert (58 ^ Z.of_nat (List.length u) <= 256 ^ Z.of_nat (List.length u))
        by (apply Z.pow_le_mono_l; lia).
      nia. }
    specialize (H ltac:(lia)). lia.
  - pose proof (pow256_le_pow58 (List.length w)) as Hpow.
    assert (Hd : 0 <= (11 * Z.of_nat (List.length w) + 7) / 8)
      by (apply Z.div_pos; lia).
    pose proof (b58encode_loop_length_le (base58.loop_fuel acc) acc []
                  (Z.to_nat ((11 * Z.of_nat (List.length w) + 7) / 8))) as H.
    rewrite Z2Nat.id in H by assumption.
    specialize (H ltac:(lia)). cbn [List.length] in H.
    assert (Z.of_nat k + (11 * Z.of_nat (List.length w) + 7) / 8
            <= (11 * Z.of_nat (k + List.length w) + 7) / 8).
    { rewrite <- Z.div_add_l by lia. apply Z.div_le_mono; lia. }
    lia.
Qed.

Lemma length_string_of_list_byte (b : list byte) :
  String.length (string_of_list_byte b) = List.length b.
Proof.
  unfold string_of_list_byte. induction b as [|x b IH]; [reflexivity|].
  cbn. now rewrite IH.
Qed.

Lemma mapM_length {A B : Type} (f : A -> result B) (l : list A) (r : list B) :
  mapM f l = Ok r -> List.length r = List.length l.
Proof.
  intros H. apply mapM_ok in H. induction H; cbn; congruence.
Qed.

(** X4. The text of a 32-integer key has from 32 to 44 characters, that of
    a 64-integer key from 64 to 88. *)
Theorem list_to_base58_length (l : list Z) (s : string) :
  list_to_base58 (VList (map VInt l)) = Ok s ->
  (List.length l = 32 /\ 32 <= String.length s <= 44)%nat
  \/ (List.length l = 64 /\ 64 <= String.length s <= 88)%nat.
Proof.
  intros H.
  destruct (proj1 (proj1 (list_to_base58_integers l)) (ex_intro _ s H))
    as [Hlen _].
  destruct (list_to_base58_ok_inv _ s H) as (b & Hb & ->).
  cbn [py_bytes] in Hb. apply mapM_length in Hb. rewrite length_map in Hb.
  rewrite length_string_of_list_byte.
  destruct (b58encode_length b) as [Hlo Hhi]. rewrite Hb in Hlo, Hhi.
  destruct Hlen as [E|E]; [left | right]; rewrite E in Hlo, Hhi |- *;
    (split; [reflexivity|]).
  - change ((11 * Z.of_nat 32 + 7) / 8) with 44 in Hhi. lia.
  - change ((11 * Z.of_nat 64 + 7) / 8) with 88 in Hhi. lia.
Qed.

Lemma list_to_base58_length_witness :
  (List.length (repeat 255 32) = 32
   /\ 32 <= String.length "JEKNVnkbo3jma5nREBBJCDoXFVeKkD56V3xKrvRmWxFG" <= 44)%nat
  \/ (List.length (repeat 255 32) = 64
      /\ 64 <= String.length "JEKNVnkbo3jma5nREBBJCDoXFVeKkD56V3xKrvRmWxFG" <= 88)%nat.
Proof.
  apply (list_to_base58_length (repeat 255 32)). vm_compute. reflexivity.
Defined.

(** ** Leading zeros *)

Lemma map_Z_of_byte_inj (a b : list byte) :
  map Z_of_byte a = map Z_of_byte b -> a = b.
Proof.
  revert b. induction a as [|x a IH]; intros [|y b] H; try discriminate H.
  - reflexivity.
  - cbn [map] in H. injection H as Hx H.
    now rewrite (Z_of_byte_inj x y Hx), (IH b H).
Qed.

Lemma string_of_list_byte_app (a b : list byte) :
  string_of_list_byte (a ++ b)%list
  = string_of_list_byte a ++ string_of_list_byte b.
Proof.
  unfold string_of_list_byte. induction a as [|x a IH]; [reflexivity|].
  cbn. now rewrite IH.
Qed.

(** X5. A key that starts with [k] zeros and goes on with a non-zero item,
    or ends there, is encoded to [k] times the character [1] followed by
    digits that do not start with [1]. *)
Theorem list_to_base58_leading_zeros (k : nat) (w : list Z) :
  (List.length (repeat 0%Z k ++ w)%list = 32
   \/ List.length (repeat 0%Z k ++ w)%list = 64)%nat ->
  Forall (fun z => 0 <= z <= 255) w ->
  (w = [] \/ exists z u, w = z :: u /\ z <> 0) ->
  exists digits,
    list_to_base58 (VList (map VInt (repeat 0 k ++ w)%list))
    = Ok (string_of_list_ascii (repeat "1"%char k) ++ digits)
    /\ prefix "1" digits = false.
Proof.
  intros Hlen Hrange Hhead.
  assert (Hall : Forall (fun z => 0 <= z <= 255) (repeat 0 k ++ w)%list).
  { apply Forall_app. split; [|assumption].
    apply Forall_forall. intros z Hz. apply repeat_spec in Hz. lia. }
  destruct (list_to_base58_valid _ Hlen Hall) as (bs & Hbs & ->).
  destruct (py_bytes_in_range w Hrange) as (bw & _ & Hbw).
  assert (E : bs = (repeat x00 k ++ bw)%list).
  { apply map_Z_of_byte_inj. rewrite Hbs, map_app, Hbw. f_equal.
    clear. induction k as [|k IH]; [reflexivity|]. cbn. now rewrite <- IH. }
  subst bs.
  assert (Hstrip : bytes_lstrip [x00] (repeat x00 k ++ bw)%list = bw).
  { rewrite Base58Facts.bytes_lstrip_repeat.
    destruct Hhead as [->|(z & u & -> & Hz)].
    - destruct bw; [reflexivity | discriminate Hbw].
    - destruct bw as [|b bu]; [discriminate Hbw|].
      cbn [map] in Hbw. injection Hbw as Hb _.
      cbn [bytes_lstrip existsb]. rewrite orb_false_r.
      destruct (Byte.eqb b x00) eqn:Eb; [|reflexivity].
      apply byte_eqb_eq in Eb. subst b.
      change (Z_of_byte x00) with 0 in Hb. lia. }
  rewrite Base58Facts.b58encode_shape by assumption.
  set (acc := base58.from_bytes_big bw).
  set (ds := base58.b58encode_loop base58.BITCOIN_ALPHABET (base58.loop_fuel acc) acc []).
  exists (string_of_list_byte ds). split.
  - rewrite string_of_list_byte_app. f_equal. f_equal.
    clear. induction k as [|k IH]; [reflexivity|].
    cbn [repeat]. unfold string_of_list_byte in *. cbn. now rewrite <- IH.
  - assert (Hds : bytes_lstrip [x31] ds = ds).
    { pose proof (Base58Facts.from_bytes_big_bounds bw) as Hacc. fold acc in Hacc.
      destruct (Z.eq_dec acc 0) as [E0|Hne].
      - unfold ds. rewrite E0. reflexivity.
      - apply (Base58Facts.b58encode_loop_lstrip (base58.loop_fuel acc) acc []).
        pose proof (Base58Facts.loop_fuel_enough acc ltac:(lia)). lia. }
    destruct ds as [|c ds']; [reflexivity|].
    cbn [bytes_lstrip existsb] in Hds. rewrite orb_false_r in Hds.
    destruct (Byte.eqb c x31) eqn:Ec.
    + exfalso. assert (Hl : (List.length (bytes_lstrip [x31] ds') <= List.length ds')%nat).
      { clear. induction ds' as [|x t IH]; [apply Nat.le_refl|].
        cbn [bytes_lstrip]. destruct (existsb (Byte.eqb x) [x31]); cbn; lia. }
      rewrite Hds in Hl. cbn in Hl. lia.
    + unfold string_of_list_byte. cbn [map string_of_list_ascii].
      apply prefix_head.
      destruct (Ascii.eqb_spec (ascii_of_byte c) "1") as [E1|]; [|reflexivity].
      exfalso. assert (c = x31).
      { rewrite <- (byte_of_ascii_of_byte c), E1. reflexivity. }
      subst c. discriminate Ec.
Qed.

Lemma list_to_base58_leading_zeros_witness :
  exists digits,
    list_to_base58 (VList (map VInt (repeat 0 30 ++ [1; 0])%list))
    = Ok (string_of_list_ascii (repeat "1"%char 30) ++ digits)
    /\ prefix "1" digits = false.
Proof.
  apply (list_to_base58_leading_zeros 30 [1; 0]).
  - left. reflexivity.
  - repeat constructor; lia.
  - right. exists 1, [0]. split; [reflexivity | lia].
Defined.

(** ** Items that are no integers in range *)

Lemma py_any_skip (pre rest : list value) :
  Forall (fun v => in_byte_range v = Ok true) pre ->
  py_any (fun n => ok <- in_byte_range n ;; Ok (negb ok)) (pre ++ rest)%list
  = py_any (fun n => ok <- in_byte_range n ;; Ok (negb ok)) rest.
Proof.
  induction 1 as [|v pre Hv _ IH]; [reflexivity|].
  cbn [app py_any]. rewrite Hv. cbn [bind negb]. exact IH.
Qed.

Lemma list_to_base58_first_item (pre rest : list value) (v : value) :
  (List.length (pre ++ v :: rest)%list = 32
   \/ List.length (pre ++ v :: rest)%list = 64)%nat ->
  Forall (fun v => in_byte_range v = Ok true) pre ->
  list_to_base58 (VList (pre ++ v :: rest)%list)
  = (ok <- in_byte_range v ;;
     if negb ok then raise ValueError "All list items must be in 0-255 range"
     else
       bad <- py_any (fun n => ok <- in_byte_range n ;; Ok (negb ok)) rest ;;
       if bad then raise ValueError "All list items must be in 0-255 range"
       else
         b <- py_bytes (VList (pre ++ v :: rest)%list) ;;
         bytes_decode (base58.b58encode b)).
Proof.
  intros Hlen Hpre. unfold list_to_base58. cbn [py_len bind py_iter].
  apply length_test in Hlen. rewrite Hlen.
  rewrite py_any_skip by assumption. cbn [py_any].
  destruct (in_byte_range v) as [[|]|e]; reflexivity.
Qed.

(** X6. In a list of 32 or 64 items, the first number outside [0,255]
    decides, once the items before it are numbers inside: the range error
    is raised whatever the items after it are. *)
Theorem list_to_base58_first_out_of_range (pre rest : list value) (v : value) :
  (List.length (pre ++ v :: rest)%list = 32
   \/ List.length (pre ++ v :: rest)%list = 64)%nat ->
  Forall (fun v => in_byte_range v = Ok true) pre ->
  in_byte_range v = Ok false ->
  list_to_base58 (VList (pre ++ v :: rest)%list)
  = Raise (mk_exn ValueError "All list items must be in 0-255 range").
Proof.
  intros Hlen Hpre Hv.
  rewrite list_to_base58_first_item by assumption. now rewrite Hv.
Qed.

Lemma list_to_base58_first_out_of_range_witness :
  list_to_base58
    (VList (repeat (VInt 7) 3 ++ VInt 300 :: repeat (VStr "x") 28)%list)
  = Raise (mk_exn ValueError "All list items must be in 0-255 range").
Proof.
  apply (list_to_base58_first_out_of_range (repeat (VInt 7) 3)
           (repeat (VStr "x") 28) (VInt 300)).
  - left. reflexivity.
  - repeat constructor.
  - reflexivity.
Defined.

(** X7. In a list of 32 or 64 items, the first item that is no number
    decides, once the items before it are numbers inside [0,255]: the
    comparison raises a [TypeError] that names the type of the item. *)
Theorem list_to_base58_first_not_a_number (pre rest : list value) (v : value) :
  (List.length (pre ++ v :: rest)%list = 32
   \/ List.length (pre ++ v :: rest)%list = 64)%nat ->
  Forall (fun v => in_byte_range v = Ok true) pre ->
  not_a_number v = true ->
  list_to_base58 (VList (pre ++ v :: rest)%list)
  = Raise (mk_exn TypeError
             ("'<=' not supported between instances of 'int' and '"
                ++ type_name v ++ "'")).
Proof.
  intros Hlen Hpre Hv.
  rewrite list_to_base58_first_item by assumption.
  destruct v; try discriminate Hv; reflexivity.
Qed.

Lemma list_to_base58_first_not_a_number_witness :
  list_to_base58 (VList (repeat (VInt 7) 3 ++ VNone :: repeat (VInt 300) 28)%list)
  = Raise (mk_exn TypeError
             "'<=' not supported between instances of 'int' and 'NoneType'").
Proof.
  apply (list_to_base58_first_not_a_number (repeat (VInt 7) 3)
           (repeat (VInt 300) 28) VNone).
  - left. reflexivity.
  - repeat constructor.
  - reflexivity.
Defined.

Lemma py_any_in_range (items : list value) :
  Forall (fun v => in_byte_range v = Ok true) items ->
  py_any (fun n => ok <- in_byte_range n ;; Ok (negb ok)) items = Ok false.
Proof.
  intros H. rewrite <- (app_nil_r items). now rewrite py_any_skip.
Qed.

(** A number inside the range is an integer, a Boolean or a float. *)
Lemma in_byte_range_true (v : value) :
  in_byte_range v = Ok true ->
  (exists z, v = VInt z /\ 0 <= z <= 255)
  \/ (exists b, v = VBool b)
  \/ (exists q, v = VFloat q).
Proof.
  destruct v; try discriminate; intros H.
  - right. left. eauto.
  - left. exists z. split; [reflexivity|].
    unfold in_byte_range in H. cbn in H.
    destruct (Z.leb_spec 0 z); [|discriminate].
    cbn in H. injection H as H. apply Z.leb_le in H. lia.
  - right. right. eauto.
Qed.

(** X8. A list of 32 or 64 numbers that all lie in [0,255] and of which one
    is a float passes both tests and fails in the conversion to bytes, with
    the [TypeError] of a float where an integer is wanted. *)
Theorem list_to_base58_float (items : list value) :
  (List.length items = 32 \/ List.length items = 64)%nat ->
  Forall (fun v => in_byte_range v = Ok true) items ->
  Exists (fun v => exists q, v = VFloat q) items ->
  list_to_base58 (VList items)
  = Raise (mk_exn TypeError
             "'float' object cannot be interpreted as an integer").
Proof.
  intros Hlen Hrange Hfloat.
  unfold list_to_base58. cbn [py_len bind py_iter py_bytes].
  apply length_test in Hlen. rewrite Hlen.
  rewrite py_any_in_range by assumption. cbn [bind].
  assert (E : mapM byte_of_item items
              = Raise (mk_exn TypeError
                         "'float' object cannot be interpreted as an integer")).
  { clear Hlen. induction Hfloat as [v items (q & ->) | v items _ IH].
    - reflexivity.
    - inversion Hrange as [|? ? Hv Hitems]; subst.
      cbn [mapM].
      destruct (in_byte_range_true v Hv) as [(z & -> & Hz) | [(b & ->) | (q & ->)]].
      + cbn [byte_of_item]. unfold index_to_byte.
        destruct (byte_of_Z_in_range z Hz) as (x & -> & _). cbn [bind].
        now rewrite (IH Hitems).
      + cbn [byte_of_item]. unfold index_to_byte.
        destruct (byte_of_Z_in_range (Z.b2z b)) as (x & -> & _);
          [destruct b; cbn; lia|].
        cbn [bind]. now rewrite (IH Hitems).
      + reflexivity. }
  now rewrite E.
Qed.

Lemma list_to_base58_float_witness :
  list_to_base58 (VList (repeat (VInt 9) 63 ++ [VFloat (1 # 2)])%list)
  = Raise (mk_exn TypeError
             "'float' object cannot be interpreted as an integer").
Proof.
  apply (list_to_base58_float (repeat (VInt 9) 63 ++ [VFloat (1 # 2)])%list).
  - right. reflexivity.
  - repeat constructor.
  - apply Exists_exists. exists (VFloat (1 # 2)). split.
    + apply in_or_app. right. left. reflexivity.
    + eauto.
Defined.

Lemma in_byte_range_unbool (v : value) :
  in_byte_range (unbool v) = in_byte_range v.
Proof. destruct v; reflexivity. Qed.

Lemma byte_of_item_unbool (v : value) : byte_of_item (unbool v) = byte_of_item v.
Proof. destruct v; reflexivity. Qed.

(** X9. The encoder reads [True] as 1 and [False] as 0: a list with
    Booleans in it is treated as the list with the integers in their place. *)
Theorem list_to_base58_booleans (items : list value) :
  list_to_base58 (VList items) = list_to_base58 (VList (map unbool items)).
Proof.
  unfold list_to_base58. cbn [py_len bind py_iter py_bytes]. rewrite length_map.
  destruct (negb ((List.length items =? 32) || (List.length items =? 64))%nat);
    [reflexivity|].
  assert (Hany : py_any (fun n => ok <- in_byte_range n ;; Ok (negb ok))
                   (map unbool items)
                 = py_any (fun n => ok <- in_byte_range n ;; Ok (negb ok)) items).
  { induction items as [|v items IH]; [reflexivity|].
    cbn [map py_any]. now rewrite in_byte_range_unbool, IH. }
  assert (Hbytes : mapM byte_of_item (map unbool items) = mapM byte_of_item items).
  { clear Hany. induction items as [|v items IH]; [reflexivity|].
    cbn [map mapM]. now rewrite byte_of_item_unbool, IH. }
  now rewrite Hany, Hbytes.
Qed.

(** ** The loader *)

Lemma strip_by_prefix (p : ascii -> bool) (a s : string) :
  all_chars p a = true -> strip_by p (a ++ s) = strip_by p s.
Proof.
  unfold all_chars. induction a as [|c a IH]; [reflexivity|].
  cbn [list_ascii_of_string forallb append]. intros H.
  apply andb_prop in H as [Hc Ha]. rewrite strip_by_cons by assumption.
  now apply IH.
Qed.

Lemma strip_by_suffix (p : ascii -> bool) (b : string) :
  all_chars p b = true -> forall s, strip_by p (s ++ b) = strip_by p s.
Proof.
  unfold all_chars. induction b as [|c b IH]; intros H s.
  - now rewrite append_nil_r.
  - cbn [list_ascii_of_string forallb] in H. apply andb_prop in H as [Hc Hb].
    change (String c b) with (String c "" ++ b).
    rewrite <- append_assoc, (IH Hb). now apply strip_by_snoc.
Qed.

(** X10. White space before and after the contents of a file makes no
    difference to what is loaded from it, whatever its suffix. *)
Theorem load_list_padding (P : parsers) (fs1 fs2 : filesystem)
    (source text before after_ : string) :
  all_chars is_space before = true ->
  all_chars is_space after_ = true ->
  fs1 source = Present (Ok text) ->
  fs2 source = Present (Ok (before ++ text ++ after_)) ->
  load_list P fs1 source = load_list P fs2 source.
Proof.
  intros Hb Ha H1 H2. unfold load_list. rewrite H1, H2. cbn [bind].
  assert (E : py_strip (before ++ text ++ after_) = py_strip text).
  { unfold py_strip. rewrite strip_by_prefix by assumption.
    now apply strip_by_suffix. }
  now rewrite E.
Qed.

Lemma load_list_padding_witness :
  load_list cpython
    (fun p => if String.eqb p "k.csv" then Present (Ok "1,2") else Missing) "k.csv"
  = load_list cpython
      (fun p => if String.eqb p "k.csv"
                then Present (Ok ("  " ++ "1,2" ++ newline)) else Missing) "k.csv".
Proof.
  apply (load_list_padding cpython
           (fun p => if String.eqb p "k.csv" then Present (Ok "1,2") else Missing)
           (fun p => if String.eqb p "k.csv"
                     then Present (Ok ("  " ++ "1,2" ++ newline)) else Missing)
           "k.csv" "1,2" "  " newline); reflexivity.
Defined.

Lemma strip_by_all (p : ascii -> bool) (x : string) :
  all_chars p x = true -> strip_by p x = "".
Proof.
  intros H. rewrite <- (append_nil_r x). now rewrite strip_by_prefix.
Qed.

Lemma split_runs_all_separators (sep : ascii -> bool) (s : string) :
  all_chars sep s = true -> split_runs sep s "" = [].
Proof.
  unfold all_chars. induction s as [|c s IH]; [reflexivity|].
  cbn [list_ascii_of_string forallb split_runs]. intros H.
  apply andb_prop in H as [Hc Hs]. rewrite Hc. cbn [is_empty]. now apply IH.
Qed.

Lemma split_on_blank_pieces (s : string) :
  forall cur,
    all_chars (fun c => is_space c || Ascii.eqb c ",") s = true ->
    all_chars is_space cur = true ->
    Forall (fun x => all_chars is_space x = true) (split_on "," s cur).
Proof.
  unfold all_chars at 1. induction s as [|c s IH]; intros cur Hs Hcur.
  - repeat constructor. assumption.
  - cbn [list_ascii_of_string forallb] in Hs. apply andb_prop in Hs as [Hc Hs].
    cbn [split_on]. destruct (Ascii.eqb c ",") eqn:E.
    + constructor; [assumption|]. now apply IH.
    + apply IH; [assumption|]. rewrite orb_false_r in Hc.
      rewrite all_chars_app, Hcur. unfold all_chars. cbn. now rewrite Hc.
Qed.

(** X11. A file that is no [.json] file and holds white space and commas
    only, or nothing, loads as the empty list, and the program then reports
    that it got 0 integers. *)
Theorem load_list_blank_file (P : parsers) (fs : filesystem)
    (source text : string) :
  fs source = Present (Ok text) ->
  py_suffix source <> ".json" ->
  all_chars (fun c => is_space c || Ascii.eqb c ",") text = true ->
  load_list P fs source = Ok (VList [])
  /\ main P fs source
     = {| stdout := "";
          stderr := "Error: Expected 32 or 64 integers, got 0" ++ newline;
          exit_code := 1 |}.
Proof.
  intros Hfs Hjson Hblank.
  assert (E : load_list P fs source = Ok (VList [])).
  { unfold load_list. rewrite Hfs. cbn [bind].
    apply String.eqb_neq in Hjson. rewrite Hjson.
    destruct (String.eqb (py_suffix source) ".csv").
    - assert (Hnone : filter (fun x => negb (is_empty (py_strip x)))
                        (py_split_on "," (py_strip text)) = []).
      { assert (Hp : Forall (fun x => all_chars is_space x = true)
                       (py_split_on "," (py_strip text))).
        { apply split_on_blank_pieces; [|reflexivity].
          now apply all_chars_strip. }
        induction Hp as [|x l Hx _ IH]; [reflexivity|].
        cbn [filter]. unfold py_strip at 1. now rewrite strip_by_all. }
      now rewrite Hnone.
    - rewrite py_split_text, split_runs_all_separators by assumption.
      reflexivity. }
  split; [exact E|]. unfold main. rewrite E. reflexivity.
Qed.

Lemma load_list_blank_file_witness :
  load_list cpython
    (fun p => if String.eqb p "k.csv" then Present (Ok " , ,") else Missing) "k.csv"
  = Ok (VList []).
Proof.
  apply (load_list_blank_file cpython
           (fun p => if String.eqb p "k.csv" then Present (Ok " , ,") else Missing)
           "k.csv" " , ,").
  - reflexivity.
  - vm_compute. discriminate.
  - reflexivity.
Defined.

(** ** Writing a list to a file and loading it *)

Lemma split_runs_piece (sep : ascii -> bool) (x : string) :
  all_chars (fun c => negb (sep c)) x = true ->
  forall s cur, split_runs sep (x ++ s) cur = split_runs sep s (cur ++ x).
Proof.
  unfold all_chars. induction x as [|c x IH]; intros H s cur.
  - now rewrite append_nil_r.
  - cbn [list_ascii_of_string forallb] in H. apply andb_prop in H as [Hc Hx].
    apply negb_true_iff in Hc. cbn [append split_runs]. rewrite Hc, (IH Hx).
    f_equal. now rewrite append_assoc.
Qed.

Lemma split_runs_separators (sep : ascii -> bool) (b : string) :
  all_chars sep b = true -> b <> "" ->
  forall s cur,
    split_runs sep (b ++ s) cur
    = ((if is_empty cur then [] else [cur]) ++ split_runs sep s "")%list.
Proof.
  unfold all_chars. induction b as [|c b IH]; intros H Hne s cur; [congruence|].
  cbn [list_ascii_of_string forallb] in H. apply andb_prop in H as [Hc Hb].
  cbn [append split_runs]. rewrite Hc.
  assert (E : split_runs sep (b ++ s) "" = split_runs sep s "").
  { destruct b as [|d b]; [reflexivity|].
    now rewrite (IH Hb ltac:(discriminate)). }
  rewrite E. now destruct (is_empty cur).
Qed.

Lemma str_of_int_not_empty (z : Z) : is_empty (str_of_int z) = false.
Proof.
  destruct (str_of_int_head z) as (c & t & -> & _). reflexivity.
Qed.

Lemma is_empty_append (a b : string) : is_empty b = false -> is_empty (a ++ b) = false.
Proof. destruct a; [trivial | reflexivity]. Qed.

Lemma mapM_py_int_str (l : list Z) : mapM py_int (map str_of_int l) = Ok l.
Proof.
  induction l as [|z l IH]; [reflexivity|].
  cbn [map mapM]. now rewrite py_int_str_of_int, IH.
Qed.

Lemma concat_cons_sep (sep : string) (z y : Z) (l : list Z) :
  String.concat sep (map str_of_int (z :: y :: l))
  = str_of_int z ++ sep ++ String.concat sep (map str_of_int (y :: l)).
Proof. reflexivity. Qed.

Lemma str_of_int_all_chars (f : ascii -> bool) (z : Z) :
  (forall c, is_digit c = true -> f c = true) ->
  f "-"%char = true ->
  all_chars f (str_of_int z) = true.
Proof.
  intros Hd Hm. unfold all_chars.
  assert (H : forallb (fun c => negb (negb (f c)))
                (list_ascii_of_string (str_of_int z)) = true).
  { apply (str_of_int_no_space (fun c => negb (f c)) z).
    - intros c Hc. now rewrite (Hd c Hc).
    - now rewrite Hm. }
  rewrite forallb_forall in H |- *. intros c Hc.
  specialize (H c Hc). now rewrite negb_involutive in H.
Qed.

Lemma split_runs_items (sep : string) (z : Z) (l : list Z) :
  all_chars (fun c => is_space c || Ascii.eqb c ",") sep = true ->
  sep <> "" ->
  forall cur,
    split_runs (fun c => is_space c || Ascii.eqb c ",")
      (String.concat sep (map str_of_int (z :: l))) cur
    = (cur ++ str_of_int z) :: map str_of_int l.
Proof.
  intros Hsep Hne.
  assert (Hpiece : forall y,
            all_chars (fun c => negb (is_space c || Ascii.eqb c ",")) (str_of_int y)
            = true).
  { intros y. apply str_of_int_all_chars; [|reflexivity].
    intros c Hc. destruct (is_digit_class c Hc) as (_ & _ & _ & _ & _ & _ & _ & _ & _ & _ & Hs & _).
    rewrite Hs. destruct c as [[] [] [] [] [] [] [] []]; vm_compute in Hc |- *;
      congruence. }
  revert z. induction l as [|y l IH]; intros z cur.
  - cbn [map String.concat].
    rewrite <- (append_nil_r (str_of_int z)) at 1.
    rewrite split_runs_piece by apply Hpiece.
    cbn [split_runs]. now rewrite is_empty_append by apply str_of_int_not_empty.
  - rewrite concat_cons_sep, split_runs_piece by apply Hpiece.
    rewrite split_runs_separators by assumption.
    rewrite is_empty_append by apply str_of_int_not_empty.
    rewrite (IH y ""). reflexivity.
Qed.



Lemma split_on_piece (x : string) :
  all_chars (fun c => negb (Ascii.eqb c ",")) x = true ->
  forall s cur, split_on "," (x ++ s) cur = split_on "," s (cur ++ x).
Proof.
  unfold all_chars. induction x as [|c x IH]; intros H s cur.
  - now rewrite append_nil_r.
  - cbn [list_ascii_of_string forallb] in H. apply andb_prop in H as [Hc Hx].
    apply negb_true_iff in Hc. cbn [append split_on]. rewrite Hc, (IH Hx).
    f_equal. now rewrite append_assoc.
Qed.

Lemma all_chars_weaken (f g : ascii -> bool) (s : string) :
  (forall c, f c = true -> g c = true) ->
  all_chars f s = true -> all_chars g s = true.
Proof.
  intros Hfg. unfold all_chars. rewrite !forallb_forall. auto.
Qed.

Lemma all_chars_concat (f : ascii -> bool) (sep : string) (l : list string) :
  all_chars f sep = true ->
  Forall (fun x => all_chars f x = true) l ->
  all_chars f (String.concat sep l) = true.
Proof.
  intros Hsep Hl. induction Hl as [|x l Hx Hl IH]; [reflexivity|].
  destruct l as [|y l]; [exact Hx|].
  change (String.concat sep (x :: y :: l))
    with (x ++ sep ++ String.concat sep (y :: l)).
  now rewrite !all_chars_app, Hx, Hsep, IH.
Qed.

Lemma split_on_items (pad : string) (l : list Z) :
  all_chars is_int_space pad = true ->
  forall z cur,
    split_on "," (String.concat (String "," pad) (map str_of_int (z :: l))) cur
    = (cur ++ str_of_int z) :: map (fun y => pad ++ str_of_int y) l.
Proof.
  intros Hpad.
  assert (Hpiece : forall y,
            all_chars (fun c => negb (Ascii.eqb c ",")) (str_of_int y) = true).
  { intros y. apply str_of_int_all_chars; [|reflexivity].
    intros c Hc.
    destruct c as [[] [] [] [] [] [] [] []]; vm_compute in Hc |- *; congruence. }
  assert (Hpadc : all_chars (fun c => negb (Ascii.eqb c ",")) pad = true).
  { revert Hpad. apply all_chars_weaken. intros c Hc.
    destruct c as [[] [] [] [] [] [] [] []]; vm_compute in Hc |- *; congruence. }
  induction l as [|y l IH]; intros z cur.
  - cbn [map String.concat].
    rewrite <- (append_nil_r (str_of_int z)) at 1.
    now rewrite split_on_piece by apply Hpiece.
  - rewrite concat_cons_sep, split_on_piece by apply Hpiece.
    cbn [append split_on]. change (Ascii.eqb "," ",") with true. cbv iota.
    rewrite split_on_piece by assumption. cbn [append].
    rewrite (IH y pad). reflexivity.
Qed.

Lemma py_strip_padded_int (pad : string) (z : Z) :
  all_chars is_int_space pad = true ->
  py_strip (pad ++ str_of_int z) = str_of_int z.
Proof.
  intros Hpad. unfold py_strip. rewrite strip_by_prefix.
  - apply strip_by_none. apply str_of_int_no_space; [|reflexivity].
    intros c Hc. apply (is_digit_class c Hc).
  - revert Hpad. apply all_chars_weaken. apply int_space_is_space.
Qed.

Lemma csv_by_the_words_items (pad : string) (l : list Z) :
  all_chars is_int_space pad = true ->
  csv_by_the_words (String.concat (String "," pad) (map str_of_int l))
  = Ok (VList (map VInt l)).
Proof.
  intros Hpad. unfold csv_by_the_words, py_split_on.
  destruct l as [|z l]; [reflexivity|].
  rewrite split_on_items by assumption. cbn [append map].
  assert (E0 : py_strip (str_of_int z) = str_of_int z)
    by apply (py_strip_padded_int "" z eq_refl).
  rewrite E0, map_map.
  assert (E : map (fun y => py_strip (pad ++ str_of_int y)) l = map str_of_int l).
  { apply map_ext. intros y. now apply py_strip_padded_int. }
  rewrite E.
  change (str_of_int z :: map str_of_int l) with (map str_of_int (z :: l)).
  assert (F : filter (fun x => negb (is_empty x)) (map str_of_int (z :: l))
              = map str_of_int (z :: l)).
  { generalize (z :: l). intros k. induction k as [|y k IH]; [reflexivity|].
    cbn [map filter]. now rewrite str_of_int_not_empty, IH. }
  rewrite F. unfold int_list_of. now rewrite mapM_py_int_str.
Qed.



(** ** From the source to the text printed *)

(** X14. When the loader gives a list of 32 or 64 integers in [0,255], the
    program prints one line, and decoding that line as it is, line break
    included, gives back the integers. *)
Theorem main_output_decodes (P : parsers) (fs : filesystem) (source : string)
    (l : list Z) :
  load_list P fs source = Ok (VList (map VInt l)) ->
  (List.length l = 32 \/ List.length l = 64)%nat ->
  Forall (fun z => 0 <= z <= 255) l ->
  exists bs,
    stderr (main P fs source) = ""
    /\ exit_code (main P fs source) = 0
    /\ base58.b58decode (stdout (main P fs source)) = Ok bs
    /\ map Z_of_byte bs = l.
Proof.
  intros Hload Hlen Hrange.
  destruct (list_to_base58_valid l Hlen Hrange) as (bs & Hl & Henc).
  exists bs. unfold main. rewrite Hload. cbn [bind]. rewrite Henc.
  cbn [stdout stderr exit_code]. repeat split; [|assumption].
  rewrite <- (Base58Facts.b58decode_b58encode bs).
  unfold base58.b58decode, py_rstrip, newline.
  now rewrite rstrip_by_snoc.
Qed.

Lemma main_output_decodes_witness :
  exists bs,
    stderr (main cpython (fun _ => Missing) (json_array_text (repeat 5 32))) = ""
    /\ exit_code (main cpython (fun _ => Missing) (json_array_text (repeat 5 32))) = 0
    /\ base58.b58decode
         (stdout (main cpython (fun _ => Missing) (json_array_text (repeat 5 32))))
       = Ok bs
    /\ map Z_of_byte bs = repeat 5 32.
Proof.
  apply (main_output_decodes cpython (fun _ => Missing)
           (json_array_text (repeat 5 32)) (repeat 5 32)).
  - vm_compute. reflexivity.
  - left. reflexivity.
  - repeat constructor; lia.
Defined.

(** ** The [.csv] rule and the rule for other files *)

Lemma lstrip_by_decompose (p : ascii -> bool) (s : string) :
  exists a, s = a ++ lstrip_by p s /\ all_chars p a = true.
Proof.
  induction s as [|c s (a & E & Ha)].
  - exists "". split; reflexivity.
  - cbn [lstrip_by]. destruct (p c) eqn:Hc.
    + exists (String c a). cbn [append]. split; [now rewrite <- E|].
      unfold all_chars in *. cbn. now rewrite Hc, Ha.
    + exists "". split; reflexivity.
Qed.

Lemma rstrip_by_decompose (p : ascii -> bool) (s : string) :
  exists b, s = rstrip_by p s ++ b /\ all_chars p b = true.
Proof.
  induction s as [|c s (b & E & Hb)].
  - exists "". split; reflexivity.
  - cbn [rstrip_by]. destruct (is_empty (rstrip_by p s) && p c) eqn:Hc.
    + apply andb_prop in Hc as [He Hc].
      destruct (rstrip_by p s); [|discriminate]. cbn [append] in E. subst s.
      exists (String c b). split; [reflexivity|].
      unfold all_chars in *. cbn. now rewrite Hc, Hb.
    + exists b. cbn [append]. split; [now rewrite <- E | assumption].
Qed.

Lemma strip_by_decompose (p : ascii -> bool) (s : string) :
  exists a b, s = a ++ strip_by p s ++ b
              /\ all_chars p a = true /\ all_chars p b = true.
Proof.
  destruct (rstrip_by_decompose p s) as (b & Eb & Hb).
  destruct (lstrip_by_decompose p (rstrip_by p s)) as (a & Ea & Ha).
  exists a, b. unfold strip_by. rewrite <- append_assoc, <- Ea, <- Eb. auto.
Qed.

Lemma split_runs_leading (sep : ascii -> bool) (a s : string) :
  all_chars sep a = true -> split_runs sep (a ++ s) "" = split_runs sep s "".
Proof.
  unfold all_chars. induction a as [|c a IH]; [reflexivity|].
  cbn [list_ascii_of_string forallb append split_runs]. intros H.
  apply andb_prop in H as [Hc Ha]. rewrite Hc. cbn [is_empty]. now apply IH.
Qed.

Lemma split_runs_trailing (sep : ascii -> bool) (b cur : string) :
  all_chars sep b = true -> is_empty cur = false ->
  split_runs sep b cur = [cur].
Proof.
  intros Hb Hcur. destruct b as [|c b].
  - cbn. now rewrite Hcur.
  - rewrite <- (append_nil_r (String c b)).
    rewrite split_runs_separators by (assumption || discriminate).
    now rewrite Hcur.
Qed.

(** The tokens of a text are those of its comma-separated pieces, one piece
    after the other. *)
Lemma split_runs_by_pieces (s : string) :
  forall cur,
    split_runs (fun c => is_space c || Ascii.eqb c ",") s cur
    = match split_on "," s "" with
      | h :: r =>
          (split_runs is_space h cur
             ++ flat_map (fun x => split_runs is_space x "") r)%list
      | [] => []
      end.
Proof.
  induction s as [|c s IH]; intros cur.
  - cbn. now rewrite app_nil_r.
  - cbn [split_runs split_on append].
    pose proof (split_on_nonempty "," s "") as Hne.
    destruct (Ascii.eqb c ",") eqn:Hc.
    + rewrite orb_true_r. cbn [split_runs flat_map].
      rewrite (IH "").
      destruct (split_on "," s "") as [|h r]; [congruence|].
      cbn [flat_map]. now destruct (is_empty cur).
    + rewrite orb_false_r, (split_on_cur "," s (String c "")).
      rewrite (IH ""), (IH (cur ++ String c "")).
      destruct (split_on "," s "") as [|h r]; [congruence|].
      cbn [append split_runs].
      destruct (is_space c); [|reflexivity].
      now destruct (is_empty cur).
Qed.

Lemma int_digits_chars (s : string) :
  forall acc prev v,
    int_digits s acc prev = Some v ->
    all_chars (fun c => is_digit c || Ascii.eqb c "_") s = true.
Proof.
  unfold all_chars. induction s as [|c s IH]; intros acc prev v H; [reflexivity|].
  cbn [int_digits] in H. cbn [list_ascii_of_string forallb].
  destruct (is_digit c).
  - cbn [orb andb]. eapply IH. exact H.
  - destruct (Ascii.eqb c "_"); [|discriminate]. cbn [orb andb].
    destruct prev; [|discriminate]. eapply IH. exact H.
Qed.

Lemma int_signed_chars (s : string) (v : Z) :
  int_signed s = Some v ->
  is_empty s = false /\ all_chars (fun c => negb (is_space c)) s = true.
Proof.
  assert (Hclass : forall c, is_digit c || Ascii.eqb c "_" = true ->
                             negb (is_space c) = true).
  { intros c. destruct c as [[] [] [] [] [] [] [] []]; vm_compute; congruence. }
  unfold int_signed. destruct s as [|c s]; [discriminate|].
  cbn [after]. intros H. split; [reflexivity|].
  assert (Htail : forall acc prev w, int_digits s acc prev = Some w ->
            all_chars (fun c => negb (is_space c)) s = true).
  { intros acc prev w Hw. apply int_digits_chars in Hw.
    revert Hw. apply all_chars_weaken. exact Hclass. }
  destruct (Ascii.eqb_spec c "-") as [->|Hm].
  - destruct (int_digits s 0 false) as [w|] eqn:Hw; [|discriminate].
    unfold all_chars. cbn [list_ascii_of_string forallb].
    apply andb_true_intro. split; [reflexivity | eapply Htail; exact Hw].
  - destruct (Ascii.eqb_spec c "+") as [->|Hp].
    + unfold all_chars. cbn [list_ascii_of_string forallb].
      apply andb_true_intro. split; [reflexivity | eapply Htail; exact H].
    + apply int_digits_chars in H. revert H. apply all_chars_weaken. exact Hclass.
Qed.

(** A piece that [int] reads holds one token, which [int] reads alike. *)
Lemma split_runs_int_piece (x : string) (z : Z) :
  py_int x = Ok z ->
  exists core, split_runs is_space x "" = [core] /\ py_int core = Ok z.
Proof.
  unfold py_int.
  destruct (int_signed (strip_by is_int_space x)) as [v|] eqn:E; [|discriminate].
  intros H. injection H as ->.
  exists (strip_by is_int_space x). split.
  - destruct (int_signed_chars _ _ E) as [Hne Hchars].
    destruct (strip_by_decompose is_int_space x) as (a & b & Ex & Ha & Hb).
    rewrite Ex at 1.
    rewrite split_runs_leading
      by (revert Ha; apply all_chars_weaken, int_space_is_space).
    rewrite split_runs_piece by assumption.
    apply split_runs_trailing; [|assumption].
    revert Hb. apply all_chars_weaken, int_space_is_space.
  - now rewrite strip_by_idem, E.
Qed.

Lemma mapM_app {A B : Type} (f : A -> result B) (a b : list A)
    (ra rb : list B) :
  mapM f a = Ok ra -> mapM f b = Ok rb -> mapM f (a ++ b)%list = Ok (ra ++ rb)%list.
Proof.
  rewrite !mapM_ok. intros Ha Hb. now apply Forall2_app.
Qed.

Lemma csv_pieces_as_tokens (pieces : list string) (zs : list Z) :
  mapM py_int (filter (fun x => negb (is_empty (py_strip x))) pieces) = Ok zs ->
  mapM py_int (flat_map (fun x => split_runs is_space x "") pieces) = Ok zs.
Proof.
  revert zs. induction pieces as [|x pieces IH]; intros zs H; [exact H|].
  cbn [filter flat_map] in H |- *.
  destruct (is_empty (py_strip x)) eqn:Hx; cbn [negb] in H.
  - assert (E : split_runs is_space x "" = []).
    { rewrite <- (split_runs_strip is_space is_space x (fun c H => H)).
      fold (py_strip x). destruct (py_strip x); [reflexivity | discriminate]. }
    rewrite E. now apply IH.
  - cbn [mapM] in H.
    destruct (py_int x) as [z|e] eqn:Ez; [|discriminate]. cbn [bind] in H.
    destruct (mapM py_int (filter _ pieces)) as [r|e] eqn:Er; [|discriminate].
    cbn [bind] in H. injection H as <-.
    destruct (split_runs_int_piece x z Ez) as (core & -> & Hcore).
    apply (mapM_app py_int [core] _ [z] r).
    + cbn [mapM]. now rewrite Hcore.
    + now apply IH.
Qed.

(** X15. Contents that load under the suffix [.csv] load to the same list
    under any suffix that is neither [.csv] nor [.json]. *)
Theorem load_list_csv_as_text (P : parsers) (fs : filesystem)
    (csv other text : string) (v : value) :
  fs csv = Present (Ok text) ->
  fs other = Present (Ok text) ->
  py_suffix csv = ".csv" ->
  py_suffix other <> ".csv" ->
  py_suffix other <> ".json" ->
  load_list P fs csv = Ok v ->
  load_list P fs other = Ok v.
Proof.
  intros Hcsv Hother Scsv Sother1 Sother2.
  unfold load_list. rewrite Hcsv, Hother, Scsv. cbn [bind].
  apply String.eqb_neq in Sother1, Sother2. rewrite Sother1, Sother2.
  change (String.eqb ".csv" ".json") with false.
  change (String.eqb ".csv" ".csv") with true. cbv iota.
  rewrite py_split_text.
  rewrite <- (split_runs_strip (fun c => is_space c || Ascii.eqb c ",")
                is_space text (fun c H => orb_true_intro _ _ (or_introl H))).
  fold (py_strip text). rewrite split_runs_by_pieces. unfold py_split_on.
  pose proof (split_on_nonempty "," (py_strip text) "") as Hne.
  destruct (split_on "," (py_strip text) "") as [|h r]; [congruence|].
  unfold int_list_of.
  destruct (mapM py_int (filter _ (h :: r))) as [zs|e] eqn:E; [|discriminate].
  cbn [bind]. intros H. injection H as <-.
  apply csv_pieces_as_tokens in E. cbn [flat_map] in E. now rewrite E.
Qed.

Lemma load_list_csv_as_text_witness :
  load_list cpython
    (fun p => if String.eqb p "k.csv" || String.eqb p "k.txt"
              then Present (Ok "1, 2,,3") else Missing)
    "k.txt"
  = Ok (VList [VInt 1; VInt 2; VInt 3]).
Proof.
  apply (load_list_csv_as_text cpython
           (fun p => if String.eqb p "k.csv" || String.eqb p "k.txt"
                     then Present (Ok "1, 2,,3") else Missing)
           "k.csv" "k.txt" "1, 2,,3");
    try reflexivity; vm_compute; discriminate.
Defined.
